(** * Recipe condition checks of the core engine

    A shallow embedding of the two condition-check modules of the
    repository:

    - [Conditions]: [src/recipes/conditions.ts];
    - [Legacy]: the second "Recipe Condition checks" module of the sources,
      which exports the same function names with different tolerances and
      a different error policy.

    Modelling choices, shared by both modules.

    - A JavaScript number is [NaN], an infinity, or an exact rational:
      IEEE-754 rounding is not modelled.
    - A JavaScript string is a byte string; [toLowerCase] lowers the ASCII
      letters.
    - An activity is an object read through [activity[prop]]: a finite map
      from property names to values.
    - A checker returns [Ok b], or [Throw e] where the JavaScript raises, or
      [IllTyped] where the input leaves the TypeScript declarations (a string
      where a number is declared) and JavaScript would go through implicit
      coercions that are not modelled.
    - [logger] calls only write diagnostics and are dropped.
    - The results of the awaited lookups (weather, tracks, activity history)
      and the clock are read from a [Services] record. *)

From Stdlib Require Import ZArith QArith Qround Qabs Lia Lqa Bool.
From Stdlib Require Import Ascii String List DecimalString DecimalPos DecimalZ.
From stdpp Require Import base option list strings gmap.

Local Open Scope string_scope.
Local Open Scope Z_scope.

(** ** JavaScript numbers *)

Inductive number : Type :=
  | NaN
  | PInf
  | NInf
  | Fin (q : Q).

Module Num.

Definition ofZ (z : Z) : number := Fin (inject_Z z).

Definition neg (a : number) : number :=
  match a with
  | NaN => NaN
  | PInf => NInf
  | NInf => PInf
  | Fin q => Fin (Qopp q)
  end.

Definition add (a b : number) : number :=
  match a, b with
  | NaN, _ | _, NaN => NaN
  | PInf, NInf | NInf, PInf => NaN
  | PInf, _ | _, PInf => PInf
  | NInf, _ | _, NInf => NInf
  | Fin x, Fin y => Fin (Qplus x y)
  end.

Definition sub (a b : number) : number := add a (neg b).

(** Sign of a rational as a comparison with zero. *)
Definition qsign (q : Q) : comparison := Qcompare q 0.

Definition mulInf (positive : bool) (q : Q) : number :=
  match qsign q with
  | Eq => NaN
  | Gt => if positive then PInf else NInf
  | Lt => if positive then NInf else PInf
  end.

Definition mul (a b : number) : number :=
  match a, b with
  | NaN, _ | _, NaN => NaN
  | PInf, PInf | NInf, NInf => PInf
  | PInf, NInf | NInf, PInf => NInf
  | PInf, Fin q | Fin q, PInf => mulInf true q
  | NInf, Fin q | Fin q, NInf => mulInf false q
  | Fin x, Fin y => Fin (Qmult x y)
  end.

(** [a <= b] *)
Definition leb (a b : number) : bool :=
  match a, b with
  | NaN, _ | _, NaN => false
  | NInf, _ => true
  | _, PInf => true
  | PInf, _ => false
  | _, NInf => false
  | Fin x, Fin y => Qle_bool x y
  end.

(** [a < b] *)
Definition ltb (a b : number) : bool :=
  match a, b with
  | NaN, _ | _, NaN => false
  | PInf, _ => false
  | _, NInf => false
  | NInf, _ => true
  | _, PInf => true
  | Fin x, Fin y => negb (Qle_bool y x)
  end.

(** [a >= b] and [a > b] *)
Definition geb (a b : number) : bool := leb b a.
Definition gtb (a b : number) : bool := ltb b a.

(** [a == b] on two numbers *)
Definition eqb (a b : number) : bool :=
  match a, b with
  | PInf, PInf | NInf, NInf => true
  | Fin x, Fin y => Qeq_bool x y
  | _, _ => false
  end.

(** [Math.round]: the nearest integer, halves rounded up. *)
Definition round (a : number) : number :=
  match a with
  | Fin q => ofZ (Qfloor (Qplus q (1 # 2)))
  | _ => a
  end.

(** Truthiness of a number: neither [NaN] nor zero. *)
Definition truthy (a : number) : bool :=
  match a with
  | NaN => false
  | Fin q => negb (Qeq_bool q 0)
  | _ => true
  end.

End Num.

(** ** JavaScript strings *)

Module Str.

Definition code (c : ascii) : nat := nat_of_ascii c.

Definition isDigit (c : ascii) : bool :=
  (48 <=? code c)%nat && (code c <=? 57)%nat.

Definition digitVal (c : ascii) : Z := Z.of_nat (code c) - 48.

Definition lowerChar (c : ascii) : ascii :=
  if (65 <=? code c)%nat && (code c <=? 90)%nat
  then ascii_of_nat (code c + 32)
  else c.

Fixpoint toLowerCase (s : string) : string :=
  match s with
  | EmptyString => EmptyString
  | String c r => String (lowerChar c) (toLowerCase r)
  end.

(** [s.indexOf(p) == 0] *)
Fixpoint startsWith (p s : string) : bool :=
  match p, s with
  | EmptyString, _ => true
  | String a p', String b s' => Ascii.eqb a b && startsWith p' s'
  | String _ _, EmptyString => false
  end.

(** [s.includes(p)] *)
Fixpoint includes (s p : string) : bool :=
  startsWith p s ||
  match s with
  | EmptyString => false
  | String _ r => includes r p
  end.

(** [s.split(sep)] for a one-character separator: the pieces between the
    separators, one piece for a string without separator. *)
Fixpoint split (sep : ascii) (s : string) : list string :=
  match s with
  | EmptyString => [EmptyString]
  | String ch r =>
      if Ascii.eqb ch sep then EmptyString :: split sep r
      else
        match split sep r with
        | piece :: pieces => String ch piece :: pieces
        | [] => [String ch EmptyString]
        end
  end.

(** [arr.includes(x)] and [arr.indexOf(x) >= 0] on an array of strings. *)
Definition member (x : string) (l : list string) : bool :=
  existsb (String.eqb x) l.

Fixpoint filter (f : ascii -> bool) (s : string) : string :=
  match s with
  | EmptyString => EmptyString
  | String c r => if f c then String c (filter f r) else filter f r
  end.

Definition ofZ (z : Z) : string := NilZero.string_of_int (Z.to_int z).

End Str.

(** ** Parsing numbers out of strings *)

Module Parse.

(** The ASCII members of [StrWhiteSpaceChar]. *)
Definition isSpace (c : ascii) : bool :=
  let n := Str.code c in
  ((9 <=? n)%nat && (n <=? 13)%nat) || (n =? 32)%nat.

Fixpoint trimStart (s : string) : string :=
  match s with
  | String c r => if isSpace c then trimStart r else s
  | EmptyString => s
  end.

Fixpoint allSpace (s : string) : bool :=
  match s with
  | String c r => isSpace c && allSpace r
  | EmptyString => true
  end.

(** The longest run of decimal digits at the head of [s]: its value
    accumulated onto [acc], the number of digits read, and the rest. *)
Fixpoint digits (s : string) (acc : Z) (n : nat) : Z * nat * string :=
  match s with
  | String c r =>
      if Str.isDigit c then digits r (10 * acc + Str.digitVal c) (S n)
      else (acc, n, s)
  | EmptyString => (acc, n, s)
  end.

(** An optional sign; [true] for a minus. *)
Definition sign (s : string) : bool * string :=
  match s with
  | String "-" r => (true, r)
  | String "+" r => (false, r)
  | _ => (false, s)
  end.

(** An optional exponent part; it is read only when a digit follows. *)
Definition exponent (s : string) : Z * string :=
  match s with
  | String c r =>
      if Ascii.eqb c "e" || Ascii.eqb c "E" then
        let '(neg, r1) := sign r in
        let '(e, n, r2) := digits r1 0 0 in
        match n with
        | O => (0, s)
        | _ => (if neg then - e else e, r2)
        end
      else (0, s)
  | EmptyString => (0, s)
  end.

(** [m * 10^e] *)
Definition scale (m e : Z) : Q := Qmult (inject_Z m) (Qpower (10 # 1) e).

(** The longest prefix of [s] that is a [StrDecimalLiteral], after the
    sign: its value and the rest, or [None] when there is none. *)
Definition decimal (s : string) : option (number * string) :=
  if Str.startsWith "Infinity" s then
    Some (PInf, String.substring 8 (String.length s - 8) s)
  else
    let '(ip, ni, r1) := digits s 0 0 in
    match r1 with
    | String "." r1' =>
        let '(m, nf, r2) := digits r1' ip 0 in
        match ni, nf with
        | O, O => None
        | _, _ =>
            let '(e, r3) := exponent r2 in
            Some (Fin (scale m (e - Z.of_nat nf)), r3)
        end
    | _ =>
        match ni with
        | O => None
        | _ =>
            let '(e, r3) := exponent r1 in
            Some (Fin (scale ip e), r3)
        end
    end.

Definition signed (s : string) : option (number * string) :=
  let '(neg, r) := sign s in
  match decimal r with
  | Some (n, rest) => Some (if neg then Num.neg n else n, rest)
  | None => None
  end.

(** [parseFloat(s)] *)
Definition parseFloat (s : string) : number :=
  match signed (trimStart s) with
  | Some (n, _) => n
  | None => NaN
  end.

(** [Number(s)] for a decimal literal: the whole string must be one
    (the empty string is 0).  Hexadecimal, octal and binary literals are
    not read; the checkers apply it only to strings made of digits, dots
    and minus signs. *)
Definition toNumber (s : string) : number :=
  let t := trimStart s in
  match t with
  | EmptyString => Num.ofZ 0
  | _ =>
      match signed t with
      | Some (n, rest) => if allSpace rest then n else NaN
      | None => NaN
      end
  end.

Definition hexVal (c : ascii) : option Z :=
  let n := Str.code c in
  if Str.isDigit c then Some (Z.of_nat n - 48)
  else if (97 <=? n)%nat && (n <=? 102)%nat then Some (Z.of_nat n - 87)
  else if (65 <=? n)%nat && (n <=? 70)%nat then Some (Z.of_nat n - 55)
  else None.

Fixpoint hexDigits (s : string) (acc : Z) (n : nat) : Z * nat :=
  match s with
  | String c r =>
      match hexVal c with
      | Some d => hexDigits r (16 * acc + d) (S n)
      | None => (acc, n)
      end
  | EmptyString => (acc, n)
  end.

(** [parseInt(s)] without a radix argument. *)
Definition parseInt (s : string) : number :=
  let '(neg, r) := sign (trimStart s) in
  let '(v, n) :=
    if Str.startsWith "0x" r || Str.startsWith "0X" r
    then hexDigits (String.substring 2 (String.length r - 2) r) 0 0
    else let '(v, n, _) := digits r 0 0 in (v, n) in
  match n with
  | O => NaN
  | _ => Num.ofZ (if neg then - v else v)
  end.

End Parse.

(** ** Values, objects and outcomes *)

Set Warnings "-register-all".

(** The values an activity field, a condition value or a weather attribute
    can hold.  [JDate] carries the instant in milliseconds since the epoch. *)
Inductive JsVal : Type :=
  | JUndefined
  | JNull
  | JBool (b : bool)
  | JNum (n : number)
  | JStr (s : string)
  | JDate (ms : Z)
  | JArr (items : list JsVal)
  | JObj (fields : list (string * JsVal)).

Inductive exn : Type :=
  | TypeError
  | InvalidOperator.

Inductive result (A : Type) : Type :=
  | Ok (a : A)
  | Throw (e : exn)
  | IllTyped.

Arguments Ok {A} a.
Arguments Throw {A} e.
Arguments IllTyped {A}.

#[global] Instance result_ret : MRet result := fun A a => Ok a.
#[global] Instance result_bind : MBind result := fun A B f m =>
  match m with
  | Ok a => f a
  | Throw e => Throw e
  | IllTyped => IllTyped
  end.
#[global] Instance result_fmap : FMap result := fun A B f m =>
  match m with
  | Ok a => Ok (f a)
  | Throw e => Throw e
  | IllTyped => IllTyped
  end.

(** What the engine and the libraries supply and the sources do not fix:
    the digits [Number.prototype.toString] prints for a number that is not
    an integer, the text of a [Date], and [polyline.decode] of
    [@mapbox/polyline]. *)
Class Host : Type := {
  fracToString : Q -> string;
  dateToString : Z -> string;
  polylineDecode : string -> list (number * number);
}.

Inductive RecipeOperator : Type :=
  | Equal
  | NotEqual
  | Like
  | NotLike
  | Approximate
  | GreaterThan
  | LessThan.

#[global] Instance RecipeOperator_eq_dec : EqDecision RecipeOperator.
Proof. solve_decision. Defined.

(** [a == b] on two operators *)
Definition opIs (a b : RecipeOperator) : bool := bool_decide (a = b).

Record RecipeCondition : Type := {
  property : string;
  operator : RecipeOperator;
  value : JsVal;
}.

Module Js.

(** [_.isNil(v)] *)
Definition isNil (v : JsVal) : bool :=
  match v with
  | JUndefined | JNull => true
  | _ => false
  end.

(** Truthiness, as tested by [if (v)], [!v], [v ? a : b] and [v || w]. *)
Definition truthy (v : JsVal) : bool :=
  match v with
  | JUndefined | JNull => false
  | JBool b => b
  | JNum n => Num.truthy n
  | JStr s => negb (String.eqb s "")
  | JDate _ | JArr _ | JObj _ => true
  end.

(** [activity[prop]] and [obj.name] *)
Definition field (o : gmap string JsVal) (p : string) : JsVal :=
  default JUndefined (o !! p).

Fixpoint assoc (l : list (string * JsVal)) (p : string) : JsVal :=
  match l with
  | [] => JUndefined
  | (k, v) :: r => if String.eqb k p then v else assoc r p
  end.

Section WithHost.
Context `{Host}.

Definition isInteger (q : Q) : bool := Qeq_bool (inject_Z (Qfloor q)) q.

(** [Number.prototype.toString]: an integer below 10^21 in magnitude
    prints its decimal digits. *)
Definition numberToString (n : number) : string :=
  match n with
  | NaN => "NaN"
  | PInf => "Infinity"
  | NInf => "-Infinity"
  | Fin q =>
      if isInteger q && (Z.abs (Qfloor q) <? 10 ^ 21)
      then Str.ofZ (Qfloor q)
      else fracToString q
  end.

(** The [ToString] conversion (string concatenation, [String(v)]). *)
Fixpoint String_ (v : JsVal) : string :=
  match v with
  | JUndefined => "undefined"
  | JNull => "null"
  | JBool true => "true"
  | JBool false => "false"
  | JNum n => numberToString n
  | JStr s => s
  | JDate ms => dateToString ms
  | JArr items =>
      String.concat ","
        (map (fun x => if isNil x then "" else String_ x) items)
  | JObj _ => "[object Object]"
  end.

(** [v.toString()]: a method call, which raises on [undefined] and
    [null]. *)
Definition toString (v : JsVal) : result string :=
  if isNil v then Throw TypeError else Ok (String_ v).

(** [parseFloat(v)] and [parseInt(v)]: the argument is converted to a
    string first. *)
Definition parseFloat (v : JsVal) : number := Parse.parseFloat (String_ v).
Definition parseInt (v : JsVal) : number := Parse.parseInt (String_ v).

(** The nearest tenth of the magnitude of [q], in tenths, halves rounded
    up. *)
Definition tenths (q : Q) : Z :=
  Qfloor (Qplus (Qmult (Qabs q) (10 # 1)) (1 # 2)).

(** [x.toFixed(1)]: one digit after the point, the nearest tenth of the
    magnitude, a minus sign for a negative [x]; from 10^21 on, and for
    [NaN] and the infinities, the text of [toString]. *)
Definition toFixed1 (n : number) : string :=
  match n with
  | Fin q =>
      if Qle_bool (inject_Z (10 ^ 21)) (Qabs q) then numberToString n
      else
        (if negb (Qle_bool 0 q) then "-" else "") ++
        Str.ofZ (tenths q / 10) ++ "." ++ Str.ofZ (tenths q mod 10)
  | _ => numberToString n
  end.

End WithHost.

(** A number read out of a value where the TypeScript declaration says
    number: [undefined] compares as [NaN], [null] as 0, booleans as 0/1. *)
Definition asNumber (v : JsVal) : result number :=
  match v with
  | JNum n => Ok n
  | JUndefined => Ok NaN
  | JNull => Ok (Num.ofZ 0)
  | JBool b => Ok (Num.ofZ (if b then 1 else 0))
  | _ => IllTyped
  end.

(** [v.length] *)
Definition lengthOf (v : JsVal) : JsVal :=
  match v with
  | JArr items => JNum (Num.ofZ (Z.of_nat (length items)))
  | JStr s => JNum (Num.ofZ (Z.of_nat (String.length s)))
  | _ => JUndefined
  end.

(** [v[i]] for the coordinate pair of an activity: an array gives its
    element, [undefined] past the end; a value without elements gives
    [undefined]; indexing a string is left out. *)
Definition index (v : JsVal) (i : nat) : result JsVal :=
  match v with
  | JArr items => Ok (nth i items JUndefined)
  | JStr _ => IllTyped
  | JUndefined | JNull => Throw TypeError
  | _ => Ok JUndefined
  end.

(** [o[k]] on an object of named fields.  An array or a string has only
    its length and its numbered elements, which are not read this way. *)
Definition get (o : JsVal) (k : string) : result JsVal :=
  match o with
  | JUndefined | JNull => Throw TypeError
  | JObj fields => Ok (assoc fields k)
  | JArr _ | JStr _ =>
      if String.eqb k "length" || String.eqb (Str.filter Str.isDigit k) k
      then IllTyped else Ok JUndefined
  | _ => Ok JUndefined
  end.

(** [let [lat, long] = v]: only an iterable can be destructured. *)
Definition destructPair (v : JsVal) : result (JsVal * JsVal) :=
  match v with
  | JArr items => Ok (nth 0 items JUndefined, nth 1 items JUndefined)
  | JStr _ => IllTyped
  | _ => Throw TypeError
  end.

(** [a == b] on two identifiers of the same primitive type. *)
Definition looseEq (a b : JsVal) : result bool :=
  match a, b with
  | JNum x, JNum y => Ok (Num.eqb x y)
  | JStr x, JStr y => Ok (String.eqb x y)
  | JBool x, JBool y => Ok (Bool.eqb x y)
  | (JUndefined | JNull), (JUndefined | JNull) => Ok true
  | (JUndefined | JNull), (JNum _ | JStr _ | JBool _) => Ok false
  | (JNum _ | JStr _ | JBool _), (JUndefined | JNull) => Ok false
  | _, _ => IllTyped
  end.

(** [a === b] where one side at least is a primitive, as when a field is
    compared with a condition value: an object is never strictly equal to a
    primitive; two objects are equal when they are the same object, which
    the values do not record. *)
Definition strictEquals (a b : JsVal) : result bool :=
  match a, b with
  | (JDate _ | JArr _ | JObj _), (JDate _ | JArr _ | JObj _) => IllTyped
  | JUndefined, JUndefined => Ok true
  | JNull, JNull => Ok true
  | JBool x, JBool y => Ok (Bool.eqb x y)
  | JNum x, JNum y => Ok (Num.eqb x y)
  | JStr x, JStr y => Ok (String.eqb x y)
  | _, _ => Ok false
  end.

(** [try { m } catch (ex) { return false }] *)
Definition catchFalse (m : result bool) : result bool :=
  match m with
  | Throw _ => Ok false
  | _ => m
  end.

End Js.

(** ** Dates, as [dayjs] in UTC mode reads them *)

Module Dayjs.

Definition msPerDay : Z := 86400000.

Definition second (ms : Z) : Z := (ms / 1000) mod 60.
Definition minute (ms : Z) : Z := (ms / 60000) mod 60.
Definition hour (ms : Z) : Z := (ms / 3600000) mod 24.

(** [day()]: 0 for Sunday; the epoch was a Thursday. *)
Definition day (ms : Z) : Z := (ms / msPerDay + 4) mod 7.

(** Rounding towards zero, as [new Date(t)] clips a time value. *)
Definition truncate (q : Q) : Z :=
  if Qle_bool 0 q then Qfloor q else Qceiling q.

(** [d.add(n, "minutes")] *)
Definition addMinutes (ms : Z) (n : Q) : Z :=
  truncate (Qplus (inject_Z ms) (Qmult n (60000 # 1))).

Definition startOfDay (ms : Z) : Z := ms - ms mod msPerDay.
Definition endOfDay (ms : Z) : Z := startOfDay ms + msPerDay - 1.

(** The civil calendar: the year, and the day of the year counted from
    1 March as day 0, of a number of days since the epoch. *)
Definition civil (days : Z) : Z * Z :=
  let z := days + 719468 in
  let era := z / 146097 in
  let doe := z - era * 146097 in
  let yoe := (doe - doe / 1460 + doe / 36524 - doe / 146096) / 365 in
  let doy := doe - (365 * yoe + yoe / 4 - yoe / 100) in
  (yoe + era * 400, doy).

Definition year (ms : Z) : Z :=
  let '(y, doy) := civil (ms / msPerDay) in
  if doy <? 306 then y else y + 1.

Definition isLeap (y : Z) : bool :=
  ((y mod 4 =? 0) && negb (y mod 100 =? 0)) || (y mod 400 =? 0).

Definition dayOfYear (ms : Z) : Z :=
  let '(y, doy) := civil (ms / msPerDay) in
  if doy <? 306 then doy + 60 + (if isLeap y then 1 else 0)
  else doy - 305.

End Dayjs.

(** [StravaActivity]: the fields are read by name. *)
Abbreviation StravaActivity := (gmap string JsVal).

(** [UserData]: read by name as well ([user.spotify],
    [user.dateLastActivity], [user.dateRegistered]). *)
Abbreviation UserData := (gmap string JsVal).

Record SpotifyTrack : Type := { title : string }.

(** [StravaActivityQuery]: [before] is set only on some paths. *)
Record StravaActivityQuery : Type := {
  after : Z;
  before : option Z;
}.

(** The awaited collaborators and the clock.  A lookup that rejects is a
    [Throw]; [getActivityWeather] resolves to a summary object or [null],
    [getActivityTracks] to a list or [null]. *)
Class Services : Type := {
  now : Z;
  getActivityWeather : UserData -> StravaActivity -> result JsVal;
  getActivityTracks : UserData -> StravaActivity -> result (option (list SpotifyTrack));
  getActivities : UserData -> StravaActivityQuery -> result (list StravaActivity);
}.

(** Pieces both modules write the same way. *)
Module Common.

(** The three radii of [checkLocation], in degrees. *)
Definition radiusEqual : number := Fin (556 # 1000000).
Definition radiusApproximate : number := Fin (2735 # 1000000).
Definition radiusLike : number := Fin (5926 # 1000000).

(** [lat <= cLat + radius && lat >= cLat - radius &&
     long <= cLong + radius && long >= cLong - radius] *)
Definition near (cLat cLong radius : number) (pt : JsVal * JsVal) : result bool :=
  la ← Js.asNumber (fst pt);
  if Num.leb la (Num.add cLat radius) && Num.geb la (Num.sub cLat radius) then
    lo ← Js.asNumber (snd pt);
    Ok (Num.leb lo (Num.add cLong radius) && Num.geb lo (Num.sub cLong radius))
  else Ok false.

(** [for (let [lat, long] of coordinates) { if (...) return true }], then
    [return false]. *)
Fixpoint anyNear (cLat cLong radius : number) (coordinates : list JsVal)
  : result bool :=
  match coordinates with
  | [] => Ok false
  | c :: rest =>
      pt ← Js.destructPair c;
      hit ← near cLat cLong radius pt;
      if (hit : bool) then Ok true else anyNear cLat cLong radius rest
  end.

(** The decoded polyline as an array of [lat, long] arrays. *)
Definition decode `{Host} (v : JsVal) : result (list JsVal) :=
  match v with
  | JStr s => Ok (map (fun p => JArr [JNum (fst p); JNum (snd p)]) (polylineDecode s))
  | _ => IllTyped
  end.

(** [parseFloat(arr[i])] on the pieces of the condition value; a missing
    piece is [undefined] and parses to [NaN]. *)
Definition parsePiece (arr : list string) (i : nat) : number :=
  match arr !! i with
  | Some s => Parse.parseFloat s
  | None => NaN
  end.

(** [dayjs.utc(v)] on a [Date]. *)
Definition utc (v : JsVal) : result Z :=
  match v with
  | JDate ms => Ok ms
  | _ => IllTyped
  end.

(** [if (offset) aDate = aDate.add(offset, "minutes")] *)
Definition addOffset (ms : Z) (offset : JsVal) : result Z :=
  if Js.truthy offset then
    match offset with
    | JNum (Fin q) => Ok (Dayjs.addMinutes ms q)
    | _ => IllTyped
    end
  else Ok ms.

(** [aDate.second() + aDate.minute() * 60 + aDate.hour() * 3600] *)
Definition secondsOfDay (ms : Z) : number :=
  Num.ofZ (Dayjs.second ms + Dayjs.minute ms * 60 + Dayjs.hour ms * 3600).

(** [aTime >= value - buffer && aTime <= value + buffer] *)
Definition within (aTime value : number) (buffer : Z) : bool :=
  Num.geb aTime (Num.sub value (Num.ofZ buffer)) &&
  Num.leb aTime (Num.add value (Num.ofZ buffer)).

(** [s.replace(/[^\d.-]/g, "")] *)
Definition keepNumeric (s : string) : string :=
  Str.filter (fun c => Str.isDigit c || Ascii.eqb c "." || Ascii.eqb c "-") s.

(** The receiver of [.replace]: only a string has the method. *)
Definition receiverString (v : JsVal) : result string :=
  match v with
  | JStr s => Ok s
  | _ => Throw TypeError
  end.

(** [let w = s.replace(...); if (!isNaN(w)) w = parseFloat(w)].
    When [Number(w)] is [NaN] the value stays a string; every comparison
    the checkers make with it is false then ([w == value], [w < value],
    [w > value] and [value >= w - diff] convert it to [NaN]), which is how
    [NaN] compares, so it is carried as [NaN]. *)
Definition weatherNumber (s : string) : number :=
  let w := keepNumeric s in
  match Parse.toNumber w with
  | NaN => NaN
  | _ => Parse.parseFloat w
  end.

(** [prop.split(".")[1]] used as a property name. *)
Definition weatherProp (prop : string) : string :=
  match Str.split "." prop !! 1%nat with
  | Some s => s
  | None => "undefined"
  end.

(** [if (_.isArray(aNumber)) aNumber = aNumber.length] *)
Definition lengthIfArray (v : JsVal) : JsVal :=
  match v with
  | JArr items => JNum (Num.ofZ (Z.of_nat (length items)))
  | _ => v
  end.

(** The receiver of [aNumber.toFixed(1)]: only a number has the
    method. *)
Definition receiverNumber (v : JsVal) : result number :=
  match v with
  | JNum n => Ok n
  | _ => Throw TypeError
  end.

(** The factors [0.03] and [0.1] of the tolerance windows. *)
Definition pct3 : number := Fin (3 # 100).
Definition pct10 : number := Fin (1 # 10).

End Common.

(** The families of the synchronous checkers. *)
Inductive Family : Type :=
  | Text
  | Number
  | Location
  | Timestamp
  | SportType
  | Gear
  | Weekday.

(** ** [src/recipes/conditions.ts] *)

Module Conditions.
Section WithHost.
Context `{Host}.

Definition checkText (activity : StravaActivity) (condition : RecipeCondition)
  : result bool :=
  let prop := property condition in
  let op := operator condition in
  if Js.isNil (Js.field activity prop) then Ok false else
  aText ← Str.toLowerCase <$> Js.toString (Js.field activity prop);
  value ← Str.toLowerCase <$> Js.toString (value condition);
  let valid :=
    if opIs op Equal && String.eqb aText value then true
    else if opIs op Like && Str.includes aText value then true
    else if opIs op NotLike && negb (Str.includes aText value) then true
    else false in
  if valid then Ok true else Ok false.

Definition checkNumber (activity : StravaActivity) (condition : RecipeCondition)
  : result bool :=
  let prop := property condition in
  let op := operator condition in
  let aNumber := Common.lengthIfArray (Js.field activity prop) in
  if Js.isNil aNumber then Ok false else
  let value := Js.parseFloat (value condition) in
  valid ←
    ((if opIs op Equal then
       a ← Common.receiverNumber aNumber;
       Ok (String.eqb (Js.toFixed1 a) (Js.toFixed1 value))
     else if opIs op NotEqual then
       a ← Common.receiverNumber aNumber;
       Ok (negb (String.eqb (Js.toFixed1 a) (Js.toFixed1 value)))
     else if opIs op Approximate then
       let diff := Num.mul value Common.pct3 in
       a ← Js.asNumber aNumber;
       Ok (Num.leb value (Num.add a diff) && Num.geb value (Num.sub a diff))
     else if opIs op Like then
       let diff := Num.mul value Common.pct10 in
       a ← Js.asNumber aNumber;
       Ok (Num.leb value (Num.add a diff) && Num.geb value (Num.sub a diff))
     else if opIs op LessThan then
       a ← Js.asNumber aNumber;
       Ok (Num.ltb a value)
     else if opIs op GreaterThan then
       a ← Js.asNumber aNumber;
       Ok (Num.gtb a value)
     else Ok false) : result bool);
  if (valid : bool) then Ok true else Ok false.

(** [radius] is left unassigned for the other operators; [undefined]
    makes [cLat + radius] a [NaN]. *)
Definition radiusOf (op : RecipeOperator) : number :=
  if opIs op Equal then Common.radiusEqual
  else if opIs op Approximate then Common.radiusApproximate
  else if opIs op Like then Common.radiusLike
  else NaN.

(** The candidate coordinates: the decoded polyline, or the single
    pair [[activity[prop][0], activity[prop][1]]]. *)
Definition coordinatesOf (activity : StravaActivity) (prop : string)
  : result (list JsVal) :=
  if String.eqb prop "polyline" then Common.decode (Js.field activity "polyline")
  else
    x ← Js.index (Js.field activity prop) 0;
    y ← Js.index (Js.field activity prop) 1;
    Ok [JArr [x; y]].

Definition checkLocation (activity : StravaActivity) (condition : RecipeCondition)
  : result bool :=
  let prop := property condition in
  let op := operator condition in
  if Js.isNil (Js.field activity prop) then Ok false else
  coordinates ← coordinatesOf activity prop;
  let radius := radiusOf op in
  arr ← Str.split "," <$> Js.toString (value condition);
  let cLat := Common.parsePiece arr 0 in
  let cLong := Common.parsePiece arr 1 in
  Common.anyNear cLat cLong radius coordinates.

Definition checkTimestamp (activity : StravaActivity) (condition : RecipeCondition)
  : result bool :=
  let prop := property condition in
  let op := operator condition in
  if Js.isNil (Js.field activity prop) then Ok false else
  let isPace := Str.startsWith "pace" prop in
  let isTime := Str.includes prop "Time" in
  let eqBuffer := if isPace then 1 else 60 in
  let approxBuffer := if isPace then 20 else 600 in
  let likeBuffer := if isPace then 60 else 1800 in
  aTime ←
    (if isPace || isTime then Ok (Js.field activity prop)
     else
       aDate ← Common.utc (Js.field activity prop);
       aDate ← (if String.eqb prop "dateStart"
                then Common.addOffset aDate (Js.field activity "utcStartOffset")
                else Ok aDate);
       Ok (JNum (Common.secondsOfDay aDate)));
  let value := Js.parseInt (value condition) in
  valid ←
    ((if opIs op Equal then
        a ← Js.asNumber aTime; Ok (Common.within a value eqBuffer)
      else if opIs op Approximate then
        a ← Js.asNumber aTime; Ok (Common.within a value approxBuffer)
      else if opIs op Like then
        a ← Js.asNumber aTime; Ok (Common.within a value likeBuffer)
      else if opIs op LessThan then
        a ← Js.asNumber aTime; Ok (Num.ltb a value)
      else if opIs op GreaterThan then
        a ← Js.asNumber aTime; Ok (Num.gtb a value)
      else Ok false) : result bool);
  if (valid : bool) then Ok true else Ok false.

Definition checkSportType (activity : StravaActivity) (condition : RecipeCondition)
  : result bool :=
  let op := operator condition in
  sportType ← (if Js.truthy (Js.field activity "sportType")
               then Js.toString (Js.field activity "sportType")
               else Ok "");
  arrValue ← Str.split "," <$> Js.toString (value condition);
  let valid :=
    if opIs op Equal then Str.member sportType arrValue
    else if opIs op NotEqual then
      String.eqb sportType "" || negb (Str.member sportType arrValue)
    else false in
  if valid then Ok true else Ok false.

(** [arrValue.includes(gear)]: an element of [arrValue] is a string, and
    only an equal string is the same value. *)
Definition includesVal (arr : list string) (v : JsVal) : bool :=
  match v with
  | JStr s => Str.member s arr
  | _ => false
  end.

Definition checkGear (activity : StravaActivity) (condition : RecipeCondition)
  : result bool :=
  let op := operator condition in
  gear ← (if Js.truthy (Js.field activity "gear")
          then Js.get (Js.field activity "gear") "id"
          else Ok (JStr ""));
  arrValue ← Str.split "," <$> Js.toString (value condition);
  let valid :=
    if opIs op Equal then includesVal arrValue gear
    else if opIs op NotEqual then
      negb (Js.truthy gear) || negb (includesVal arrValue gear)
    else false in
  if valid then Ok true else Ok false.

Definition checkWeekday (activity : StravaActivity) (condition : RecipeCondition)
  : result bool :=
  let op := operator condition in
  if negb (Js.truthy (Js.field activity "dateStart")) then Ok false else
  aDate ← Common.utc (Js.field activity "dateStart");
  aDate ← Common.addOffset aDate (Js.field activity "utcStartOffset");
  let weekday := Str.ofZ (Dayjs.day aDate) in
  arrValue ← Str.split "," <$> Js.toString (value condition);
  let valid :=
    if opIs op Equal then Str.member weekday arrValue
    else if opIs op NotEqual then negb (Str.member weekday arrValue)
    else false in
  if valid then Ok true else Ok false.

Context `{Services}.

(** One round of the loop over the start and the end sample, for a
    sample that has the attribute. *)
Definition weatherStep (op : RecipeOperator) (weatherPropValue value : number)
    (valid : bool) : bool :=
  if opIs op Equal then valid || Num.eqb weatherPropValue value
  else if opIs op Approximate then
    let diff := Num.mul value Common.pct3 in
    Num.leb value (Num.add weatherPropValue diff) &&
    Num.geb value (Num.sub weatherPropValue diff)
  else if opIs op Like then
    let diff := Num.mul value Common.pct10 in
    Num.leb value (Num.add weatherPropValue diff) &&
    Num.geb value (Num.sub weatherPropValue diff)
  else if opIs op LessThan then valid || Num.ltb weatherPropValue value
  else if opIs op GreaterThan then valid || Num.gtb weatherPropValue value
  else valid.

Fixpoint weatherLoop (op : RecipeOperator) (weatherProp : string)
    (weatherPropValue value : number) (samples : list JsVal) (valid : bool)
  : result bool :=
  match samples with
  | [] => Ok valid
  | summary :: rest =>
      if negb (Js.truthy summary)
      then weatherLoop op weatherProp weatherPropValue value rest valid
      else
        attr ← Js.get summary weatherProp;
        if Js.isNil attr
        then weatherLoop op weatherProp weatherPropValue value rest valid
        else weatherLoop op weatherProp weatherPropValue value rest
               (weatherStep op weatherPropValue value valid)
  end.

Definition checkWeather (user : UserData) (activity : StravaActivity)
    (condition : RecipeCondition) : result bool :=
  let prop := property condition in
  let op := operator condition in
  if negb (Js.truthy (Js.field activity "hasLocation")) then Ok false else
  let weatherProp := Common.weatherProp prop in
  weatherSummary ← getActivityWeather user activity;
  (* [let summary: WeatherSummary] is declared without a value *)
  let summary := JUndefined in
  if negb (Js.truthy weatherSummary) then Ok false else
  raw ← Js.get summary weatherProp;
  text ← Common.receiverString raw;
  let weatherPropValue := Common.weatherNumber text in
  let value := Js.parseInt (value condition) in
  start ← Js.get weatherSummary "start";
  finish ← Js.get weatherSummary "end";
  valid ← weatherLoop op weatherProp weatherPropValue value [start; finish] false;
  if (valid : bool) then Ok true else Ok false.

Definition checkSpotify (user : UserData) (activity : StravaActivity)
    (condition : RecipeCondition) : result bool :=
  let op := operator condition in
  if negb (Js.truthy (Js.field user "spotify")) then Ok false else
  fetched ← getActivityTracks user activity;
  let tracks : list SpotifyTrack := default [] fetched in
  let trackTitles := map (fun t => Str.toLowerCase (title t)) tracks in
  value ← Str.toLowerCase <$> Js.toString (value condition);
  if negb (Js.truthy (Js.field user "spotify")) && opIs op NotLike then
    (* [valid = true] here, and the function goes on to [return false] *)
    Ok false
  else
    let valid :=
      if (0 <? length tracks)%nat then
        if opIs op Equal then
          (0 <? length (List.filter (fun t => String.eqb t value) trackTitles))%nat
        else if opIs op Like then
          (0 <? length (List.filter (fun t => Str.includes t t) trackTitles))%nat
        else if opIs op NotLike then
          (0 <? length (List.filter (fun t => negb (Str.includes t t)) trackTitles))%nat
        else false
      else if opIs op NotLike then true
      else false in
    if valid then Ok true else Ok false.

(** [dayjs(v)]: a [Date] is taken as it is, [undefined] reads the
    clock. *)
Definition toDayjs (v : JsVal) : result Z :=
  match v with
  | JDate ms => Ok ms
  | JUndefined => Ok now
  | _ => IllTyped
  end.

(** [_.filter(list, {sportType: x})]: the field is strictly equal to
    [x], and present when [x] is [undefined]. *)
Definition isUndefined (v : JsVal) : bool :=
  match v with
  | JUndefined => true
  | _ => false
  end.

Definition strictEq (x y : JsVal) : result bool :=
  match x, y with
  | (JNum _ | JDate _ | JArr _ | JObj _), _ => IllTyped
  | _, (JNum _ | JDate _ | JArr _ | JObj _) => IllTyped
  | JStr s, JStr t => Ok (String.eqb s t)
  | JBool s, JBool t => Ok (Bool.eqb s t)
  | JNull, JNull => Ok true
  | JUndefined, JUndefined => Ok true
  | _, _ => Ok false
  end.

Definition matchesSport (x : JsVal) (a : StravaActivity) : result bool :=
  same ← strictEq (Js.field a "sportType") x;
  Ok ((same : bool) &&
      (negb (isUndefined x) || bool_decide (is_Some (a !! "sportType")))).

Fixpoint filterSport (x : JsVal) (l : list StravaActivity)
  : result (list StravaActivity) :=
  match l with
  | [] => Ok []
  | a :: rest =>
      keep ← matchesSport x a;
      kept ← filterSport x rest;
      Ok (if (keep : bool) then a :: kept else kept)
  end.

(** [_.sortBy(list, "dateStart")]: ascending and stable. *)
Fixpoint insertByDate (k : Z) (a : StravaActivity)
    (l : list (Z * StravaActivity)) : list (Z * StravaActivity) :=
  match l with
  | [] => [(k, a)]
  | (k', b) :: rest =>
      if k <=? k' then (k, a) :: l else (k', b) :: insertByDate k a rest
  end.

Fixpoint sortByDate (l : list StravaActivity) : result (list (Z * StravaActivity)) :=
  match l with
  | [] => Ok []
  | a :: rest =>
      k ← Common.utc (Js.field a "dateStart");
      sorted ← sortByDate rest;
      Ok (insertByDate k a sorted)
  end.

(** The part of [checkFirstOfDay] that settles [isFirst], up to the
    test of the operator. *)
Definition isFirstOfDay (user : UserData) (activity : StravaActivity)
    (sameSport : bool) : result bool :=
  let registered :=
    if Js.truthy (Js.field user "dateLastActivity")
    then Js.field user "dateLastActivity"
    else Js.field user "dateRegistered" in
  lastActivityDate ← toDayjs registered;
  activityDate ← toDayjs (Js.field activity "dateStart");
  let isFirst :=
    (Dayjs.dayOfYear lastActivityDate <? Dayjs.dayOfYear activityDate) ||
    (Dayjs.year lastActivityDate <? Dayjs.year activityDate) in
  if negb isFirst && (sameSport || (activityDate <? lastActivityDate)) then
    let query := {|
      after := Dayjs.startOfDay activityDate;
      before := if negb (Dayjs.dayOfYear now =? Dayjs.dayOfYear activityDate)
                then Some (Dayjs.endOfDay activityDate) else None |} in
    dayActivities ← getActivities user query;
    filteredActivities ←
      (if sameSport
       then filterSport (Js.field activity "sportType") dayActivities
       else Ok dayActivities);
    activities ← sortByDate filteredActivities;
    match activities with
    | [] => Ok true
    | (_, first) :: _ =>
        same ← Js.looseEq (Js.field first "id") (Js.field activity "id");
        Ok (if (same : bool) then true else isFirst)
    end
  else Ok isFirst.

Definition checkFirstOfDay (user : UserData) (activity : StravaActivity)
    (condition : RecipeCondition) (sameSport : bool) : result bool :=
  let op := operator condition in
  let value := value condition in
  isFirst ← isFirstOfDay user activity sameSport;
  let valid :=
    if opIs op Equal then (isFirst : bool) && Js.truthy value
    else if opIs op NotEqual then negb isFirst && negb (Js.truthy value)
    else false in
  if valid then Ok true else Ok false.


(** The operators each synchronous checker has a branch for. *)
Definition handles (f : Family) (op : RecipeOperator) : bool :=
  match f, op with
  | Text, (Equal | Like | NotLike) => true
  | Number, (Equal | NotEqual | Approximate | Like | LessThan | GreaterThan) => true
  | Location, (Equal | Approximate | Like) => true
  | Timestamp, (Equal | Approximate | Like | LessThan | GreaterThan) => true
  | (SportType | Gear | Weekday), (Equal | NotEqual) => true
  | _, _ => false
  end.

Definition check (f : Family) : StravaActivity -> RecipeCondition -> result bool :=
  match f with
  | Text => checkText
  | Number => checkNumber
  | Location => checkLocation
  | Timestamp => checkTimestamp
  | SportType => checkSportType
  | Gear => checkGear
  | Weekday => checkWeekday
  end.


Definition checkBoolean (activity : StravaActivity) (condition : RecipeCondition)
  : result bool :=
  let prop := property condition in
  valid ←
    (if negb (Js.truthy (Js.field activity prop))
        && match value condition with JBool false => true | _ => false end
     then Ok true
     else Js.strictEquals (Js.field activity prop) (value condition));
  if (valid : bool) then Ok true else Ok valid.

(** [prop.length] on the field of a records condition; the [length] of an
    object of named fields is not modelled. *)
Definition recordsLength (prop : JsVal) : result JsVal :=
  match prop with
  | JObj _ => IllTyped
  | _ => Ok (Js.lengthOf prop)
  end.

(** [prop && prop.length > 0]: the falsy [prop] itself, or the
    comparison. *)
Definition recordsYes (prop : JsVal) : result JsVal :=
  if Js.truthy prop then
    len ← recordsLength prop;
    Ok (match len with
        | JNum n => JBool (Num.gtb n (Num.ofZ 0))
        | _ => JBool false
        end)
  else Ok prop.

(** [!prop || prop.length == 0] *)
Definition recordsNo (prop : JsVal) : result bool :=
  if negb (Js.truthy prop) then Ok true
  else
    len ← recordsLength prop;
    Ok (match len with
        | JNum n => Num.eqb n (Num.ofZ 0)
        | _ => false
        end).

(** [condition.value === true ? yes : no] *)
Definition recordsValid (prop value : JsVal) : result JsVal :=
  yes ← recordsYes prop;
  no ← recordsNo prop;
  Ok (match value with
      | JBool true => yes
      | _ => JBool no
      end).

Definition checkNewRecords (activity : StravaActivity) (condition : RecipeCondition)
  : result bool :=
  let prop := Js.field activity (property condition) in
  valid ← recordsValid prop (value condition);
  if Js.truthy valid then Ok true else Ok false.

End WithHost.
End Conditions.

(** ** The second condition-check module *)

Module Legacy.
Section WithHost.
Context `{Host}.

Definition checkText (activity : StravaActivity) (condition : RecipeCondition)
  : result bool :=
  let prop := property condition in
  let op := operator condition in
  if Js.isNil (Js.field activity prop) then Ok false else
  value ← Str.toLowerCase <$> Js.toString (value condition);
  aText ← Str.toLowerCase <$> Js.toString (Js.field activity prop);
  if opIs op Equal && negb (String.eqb aText value) then Ok false
  else if opIs op Like && negb (Str.includes aText value) then Ok false
  else if opIs op NotLike && Str.includes aText value then Ok false
  else if opIs op GreaterThan || opIs op LessThan then Throw InvalidOperator
  else Ok true.

(** [b && e] where evaluating [e] can fail: [e] is evaluated only when
    [b] holds. *)
Definition andM (b : bool) (e : result bool) : result bool :=
  if b then e else Ok false.

Definition checkNumber (activity : StravaActivity) (condition : RecipeCondition)
  : result bool :=
  let prop := property condition in
  let op := operator condition in
  let value := Js.parseFloat (value condition) in
  let diff := Num.mul value Common.pct10 in
  let aNumber := Common.lengthIfArray (Js.field activity prop) in
  if Js.isNil aNumber then Ok false else
  if opIs op Like then
    a ← Js.asNumber aNumber;
    Ok (Num.ltb value (Num.add a diff) && Num.gtb value (Num.sub a diff))
  else
    c ← andM (opIs op Equal)
          (a ← Js.asNumber aNumber;
           Ok (negb (Num.eqb (Num.round a) (Num.round value))));
    if (c : bool) then Ok false else
    c ← andM (opIs op GreaterThan)
          (a ← Js.asNumber aNumber; Ok (Num.leb a value));
    if (c : bool) then Ok false else
    c ← andM (opIs op LessThan)
          (a ← Js.asNumber aNumber; Ok (Num.geb a value));
    if (c : bool) then Ok false else
    Ok true.

(** The candidate coordinates; [None] stands for the [return false] of
    the last branch. *)
Definition coordinatesOf (activity : StravaActivity) (prop : string)
  : result (option (list JsVal)) :=
  if String.eqb prop "locationEnd"
     && Js.truthy (Js.field activity "polyline")
     && negb (Js.truthy (Js.lengthOf (Js.field activity "locationEnd")))
  then
    (* [[polyline.decode(activity.polyline).pop()]] *)
    decoded ← Common.decode (Js.field activity "polyline");
    Ok (Some [List.last decoded JUndefined])
  else if String.eqb prop "polyline" then
    decoded ← Common.decode (Js.field activity "polyline");
    Ok (Some decoded)
  else if Js.truthy (Js.lengthOf (Js.field activity prop)) then
    x ← Js.index (Js.field activity prop) 0;
    y ← Js.index (Js.field activity prop) 1;
    Ok (Some [JArr [x; y]])
  else Ok None.

Definition radiusOf (op : RecipeOperator) : result number :=
  if opIs op Equal then Ok Common.radiusEqual
  else if opIs op Approximate then Ok Common.radiusApproximate
  else if opIs op Like then Ok Common.radiusLike
  else Throw InvalidOperator.

Definition checkLocation (activity : StravaActivity) (condition : RecipeCondition)
  : result bool :=
  let prop := property condition in
  let op := operator condition in
  if negb (Js.truthy (Js.field activity prop)) then Ok false else
  arr ← Str.split "," <$> Js.toString (value condition);
  let cLat := Common.parsePiece arr 0 in
  let cLong := Common.parsePiece arr 1 in
  found ← coordinatesOf activity prop;
  match found with
  | None => Ok false
  | Some coordinates =>
      radius ← radiusOf op;
      Common.anyNear cLat cLong radius coordinates
  end.

Definition checkTimestamp (activity : StravaActivity) (condition : RecipeCondition)
  : result bool :=
  let prop := property condition in
  let op := operator condition in
  if negb (Js.truthy (Js.field activity prop)) then Ok false else
  let value := Js.parseInt (value condition) in
  aTime ←
    (if Str.includes prop "Time" then Ok (Js.field activity prop)
     else
       aDate ← Common.utc (Js.field activity prop);
       aDate ← (if String.eqb prop "dateStart"
                then Common.addOffset aDate (Js.field activity "utcStartOffset")
                else Ok aDate);
       Ok (JNum (Common.secondsOfDay aDate)));
  if opIs op GreaterThan then
    a ← Js.asNumber aTime; Ok (Num.gtb a value)
  else if opIs op LessThan then
    a ← Js.asNumber aTime; Ok (Num.ltb a value)
  else if opIs op Equal then
    a ← Js.asNumber aTime; Ok (Common.within a value 120)
  else if opIs op Approximate then
    a ← Js.asNumber aTime; Ok (Common.within a value 600)
  else if opIs op Like then
    a ← Js.asNumber aTime; Ok (Common.within a value 1800)
  else Ok true.

Definition checkSportType (activity : StravaActivity) (condition : RecipeCondition)
  : result bool :=
  let op := operator condition in
  if negb (Js.truthy (Js.field activity "sportType")) then Ok false else
  value ← Js.toString (value condition);
  sportType ← Js.toString (Js.field activity "sportType");
  if opIs op Equal then
    Ok (String.eqb value sportType || Str.member sportType (Str.split "," value))
  else Throw InvalidOperator.

Definition checkWeekday (activity : StravaActivity) (condition : RecipeCondition)
  : result bool :=
  let op := operator condition in
  if negb (Js.truthy (Js.field activity "dateStart")) then Ok false else
  aDate ← Common.utc (Js.field activity "dateStart");
  aDate ← Common.addOffset aDate (Js.field activity "utcStartOffset");
  value ← Js.toString (value condition);
  let weekday := Str.ofZ (Dayjs.day aDate) in
  if opIs op Equal then
    Ok (String.eqb value weekday || Str.member weekday (Str.split "," value))
  else Throw InvalidOperator.

Context `{Services}.

(** One round of the loop, for a sample that has the attribute. *)
Definition weatherStep (op : RecipeOperator) (weatherPropValue value diff : number)
    (valid : bool) : result bool :=
  if opIs op Equal then Ok (valid || Num.eqb weatherPropValue value)
  else if opIs op Like then
    Ok (Num.ltb value (Num.add weatherPropValue diff) &&
        Num.gtb value (Num.sub weatherPropValue diff))
  else if opIs op GreaterThan then Ok (valid || Num.gtb weatherPropValue value)
  else if opIs op LessThan then Ok (valid || Num.ltb weatherPropValue value)
  else Throw InvalidOperator.

Fixpoint weatherLoop (op : RecipeOperator) (weatherProp : string)
    (value diff : number) (samples : list JsVal) (valid : bool) : result bool :=
  match samples with
  | [] => Ok valid
  | summary :: rest =>
      if negb (Js.truthy summary)
      then weatherLoop op weatherProp value diff rest valid
      else
        attr ← Js.get summary weatherProp;
        if Js.isNil attr
        then weatherLoop op weatherProp value diff rest valid
        else
          text ← Common.receiverString attr;
          let weatherPropValue := Common.weatherNumber text in
          valid' ← weatherStep op weatherPropValue value diff valid;
          weatherLoop op weatherProp value diff rest valid'
  end.

Definition checkWeather (user : UserData) (activity : StravaActivity)
    (condition : RecipeCondition) : result bool :=
  let prop := property condition in
  let op := operator condition in
  if negb (Js.truthy (Js.field activity "hasLocation")) then Ok false else
  Js.catchFalse (
    let value := Js.parseInt (value condition) in
    let diff := Num.mul value Common.pct10 in
    let weatherProp := Common.weatherProp prop in
    weatherSummary ← getActivityWeather user activity;
    if negb (Js.truthy weatherSummary) then Ok false else
    start ← Js.get weatherSummary "start";
    finish ← Js.get weatherSummary "end";
    weatherLoop op weatherProp value diff [start; finish] false).


Definition checkBoolean (activity : StravaActivity) (condition : RecipeCondition)
  : result bool :=
  let prop := property condition in
  if negb (Js.truthy (Js.field activity prop))
     && match value condition with JBool false => true | _ => false end
  then Ok true
  else Js.strictEquals (Js.field activity prop) (value condition).

(** The function returns [valid] as it is, which is the falsy field itself
    when the condition value is [true] and the field is falsy. *)
Definition checkNewRecords (activity : StravaActivity) (condition : RecipeCondition)
  : result JsVal :=
  let prop := Js.field activity (property condition) in
  Conditions.recordsValid prop (value condition).

End WithHost.
End Legacy.

(** A host for evaluating examples: numbers that are not integers and dates
    print as the empty string, and a polyline is a list of
    [lat lng] pairs in plain text, separated by semicolons. *)
Definition plainDecode (s : string) : list (number * number) :=
  flat_map
    (fun piece =>
       match Str.split " " piece with
       | [a; b] => [(Parse.parseFloat a, Parse.parseFloat b)]
       | _ => []
       end)
    (Str.split ";" s).

Definition plainHost : Host := {|
  fracToString := fun _ => "";
  dateToString := fun _ => "";
  polylineDecode := plainDecode;
|}.

Definition act (l : list (string * JsVal)) : StravaActivity := list_to_map l.

Definition cond (p : string) (op : RecipeOperator) (v : JsVal) : RecipeCondition :=
  {| property := p; operator := op; value := v |}.

Definition dec (m : Z) (e : Z) : number := Fin (Parse.scale m e).

(** A lookup service for examples: a fixed weather summary, a fixed list of
    tracks, and a fixed history whatever the query. *)
Definition fixedServices (clock : Z) (weather : JsVal) (tracks : list string)
    (history : list StravaActivity) : Services := {|
  now := clock;
  getActivityWeather := fun _ _ => Ok weather;
  getActivityTracks := fun _ _ => Ok (Some (map (fun t => {| title := t |}) tracks));
  getActivities := fun _ _ => Ok history;
|}.

(** ** Translations *)

Module Translations.

(** The members of [LanguageString]. *)
Definition ids : list string :=
  ["Description"; "Cool"; "Cold"; "Warm"; "VeryCold"; "VeryWarm";
   "ExtremelyCold"; "ExtremelyWarm"; "Precipitation"; "Dry"; "Rain";
   "Drizzle"; "Snow"; "Sleet"; "Heavy"; "Temp"; "Humidity"; "Wind"; "Windy";
   "Fog"; "Organizer"; "Distance"; "ElevationGain"; "Speed"; "Calories"].

(** [languageStrings] *)
Definition languageStrings : list (string * list (string * string)) := [
  ("en",
    [("Description", "description");
     ("Cool", "cool");
     ("Cold", "cold");
     ("Warm", "warm");
     ("VeryCold", "very cold");
     ("VeryWarm", "very warm");
     ("ExtremelyCold", "extremely cold");
     ("ExtremelyWarm", "extremely warm");
     ("Precipitation", "precipitation");
     ("Dry", "dry");
     ("Rain", "rain");
     ("Drizzle", "drizzle");
     ("Snow", "snow");
     ("Sleet", "sleet");
     ("Heavy", "heavy");
     ("Temp", "temp");
     ("Humidity", "humidity");
     ("Wind", "wind");
     ("Windy", "windy");
     ("Fog", "fog");
     ("Organizer", "organizer");
     ("Distance", "distance");
     ("ElevationGain", "elevatin gain");
     ("Speed", "speed");
     ("Calories", "calories")]);
  ("de",
    [("Description", "beschreibung");
     ("Cool", "frisch");
     ("Warm", "warm");
     ("Cold", "kalt");
     ("VeryCold", "sehr kalt");
     ("VeryWarm", "sehr warm");
     ("ExtremelyCold", "extrem kalt");
     ("ExtremelyWarm", "extrem warm");
     ("Precipitation", "niederschlagsmenge");
     ("Dry", "trocken");
     ("Rain", "regen");
     ("Drizzle", "nieselregen");
     ("Snow", "schnee");
     ("Sleet", "schneeregen");
     ("Heavy", "stark");
     ("Temp", "temp");
     ("Humidity", "luftfeuchtigkeit");
     ("Wind", "wind");
     ("Windy", "windig");
     ("Fog", "nebel");
     ("Organizer", "ausrichter");
     ("Distance", "distanz");
     ("ElevationGain", "höhenmeter");
     ("Speed", "geschwindigkeit");
     ("Calories", "kalorien")]);
  ("es",
    [("Description", "descripción");
     ("Cool", "fresco");
     ("Warm", "cálido");
     ("Cold", "frío");
     ("VeryCold", "muy frío");
     ("VeryWarm", "muy cálido");
     ("ExtremelyCold", "extremadamente frío");
     ("ExtremelyWarm", "extremadamente cálido");
     ("Precipitation", "precipitación");
     ("Dry", "seco");
     ("Rain", "lluvia");
     ("Drizzle", "llovizna");
     ("Snow", "nieve");
     ("Sleet", "aguanieve");
     ("Heavy", "fuerte");
     ("Temp", "temp");
     ("Humidity", "humedad");
     ("Wind", "viento");
     ("Windy", "ventoso");
     ("Fog", "niebla");
     ("Organizer", "organizador");
     ("Distance", "distancia");
     ("ElevationGain", "desnivel");
     ("Speed", "velocidad");
     ("Calories", "calorías")]);
  ("fr",
    [("Description", "description");
     ("Cool", "frais");
     ("Warm", "chaud");
     ("Cold", "froid");
     ("VeryCold", "très froid");
     ("VeryWarm", "très chaud");
     ("ExtremelyCold", "très froid");
     ("ExtremelyWarm", "extrêmement chaud");
     ("Precipitation", "extrêmement froid");
     ("Dry", "sec");
     ("Rain", "pluie");
     ("Drizzle", "bruine");
     ("Snow", "neiger");
     ("Sleet", "neige fondue");
     ("Heavy", "forte");
     ("Temp", "temp");
     ("Humidity", "humidité");
     ("Wind", "vent");
     ("Windy", "venteux");
     ("Fog", "brouillard");
     ("Organizer", "organisateur");
     ("Distance", "distance");
     ("ElevationGain", "gain d'altitude");
     ("Speed", "vitesse");
     ("Calories", "calories")]);
  ("pt",
    [("Description", "descrição");
     ("Cool", "fresco");
     ("Cold", "frio");
     ("Warm", "quente");
     ("VeryCold", "muito frio");
     ("VeryWarm", "muito quente");
     ("ExtremelyCold", "extremamente frio");
     ("ExtremelyWarm", "extremamente quente");
     ("Precipitation", "precipitação");
     ("Dry", "seco");
     ("Rain", "chuva");
     ("Drizzle", "chuvisco");
     ("Snow", "neve");
     ("Sleet", "granizo");
     ("Heavy", "forte");
     ("Temp", "temp");
     ("Humidity", "humidade");
     ("Wind", "vento");
     ("Windy", "ventando");
     ("Fog", "neblina");
     ("Organizer", "organizador");
     ("Distance", "distância");
     ("ElevationGain", "elevação");
     ("Speed", "velocidade");
     ("Calories", "calorias")])
].

(** The names every object inherits from [Object.prototype]: indexing a
    table with one of them finds a function or the prototype, not a
    translation. *)
Definition prototypeKeys : list string :=
  ["constructor"; "__defineGetter__"; "__defineSetter__"; "hasOwnProperty";
   "__lookupGetter__"; "__lookupSetter__"; "isPrototypeOf";
   "propertyIsEnumerable"; "toString"; "valueOf"; "__proto__"; "toLocaleString"].

Definition inherited (k : string) : bool := Str.member k prototypeKeys.

(** [table[k]] among the table's own entries. *)
Fixpoint own {A : Type} (table : list (string * A)) (k : string) : option A :=
  match table with
  | [] => None
  | (k', v) :: rest => if String.eqb k' k then Some v else own rest k
  end.

Definition upperChar (ch : ascii) : ascii :=
  if (97 <=? Str.code ch)%nat && (Str.code ch <=? 122)%nat
  then ascii_of_nat (Str.code ch - 32)
  else ch.

(** [result.charAt(0).toUpperCase() + result.slice(1)]; a first character
    outside ASCII is not modelled. *)
Definition capitalize (s : string) : result string :=
  match s with
  | EmptyString => Ok EmptyString
  | String ch r =>
      if (Str.code ch <? 128)%nat then Ok (String (upperChar ch) r) else IllTyped
  end.

(** [translation(id, preferences, capitalized)]: [preferences] is an
    object or missing, [capitalized] an optional boolean; the result is a
    text, or [undefined] for an [id] the table does not have. *)
Definition translation (id : string) (preferences capitalized : JsVal) : result JsVal :=
  language ← (if Js.truthy preferences then Js.get preferences "language"
              else Ok (JStr "en"));
  language ←
    (if negb (Js.truthy language) then Ok "en"
     else match language with
          | JStr l =>
              if inherited l then IllTyped
              else match own languageStrings l with
                   | Some _ => Ok l
                   | None => Ok "en"
                   end
          | _ => IllTyped
          end);
  match own languageStrings language with
  | None => Throw TypeError
  | Some table =>
      if inherited id then IllTyped else
      match own table id with
      | Some text =>
          if Js.truthy capitalized then JStr <$> capitalize text else Ok (JStr text)
      | None =>
          if Js.truthy capitalized then Throw TypeError else Ok JUndefined
      end
  end.

End Translations.

(** Lookups that all fail. *)
Definition failingServices : Services := {|
  now := 0;
  getActivityWeather := fun _ _ => Throw TypeError;
  getActivityTracks := fun _ _ => Throw TypeError;
  getActivities := fun _ _ => Throw TypeError;
|}.

(** * Notions used in the statements *)

(** A check that neither succeeds nor raises. *)
Definition quiet (r : result bool) : Prop := r = Ok false \/ r = IllTyped.

Definition isPair (v : JsVal) : Prop := exists items, v = JArr items.

(** Order on the rationals, as booleans. *)
Definition Qltb (x y : Q) : bool := negb (Qle_bool y x).

(** [x] in the closed window [[lo, hi]], and in the open one. *)
Definition withinClosed (lo x hi : Q) : bool := Qle_bool lo x && Qle_bool x hi.
Definition withinOpen (lo x hi : Q) : bool := Qltb lo x && Qltb x hi.

(** [Math.round] on a rational, and the two keys [toFixed(1)] prints:
    whether the number is negative, and its nearest tenth. *)
Definition nearestInteger (q : Q) : Z := Qfloor (Qplus q (1 # 2)).

Definition sameTenth (x v : Q) : bool :=
  Bool.eqb (Qltb x 0) (Qltb v 0) && (Js.tenths x =? Js.tenths v).

(** Below 10^21 in magnitude, where [toFixed] prints fixed notation. *)
Definition fixedRange (q : Q) : Prop := Qle_bool (inject_Z (10 ^ 21)) (Qabs q) = false.

Fixpoint allDigits (s : string) : bool :=
  match s with
  | EmptyString => true
  | String ch r => Str.isDigit ch && allDigits r
  end.

(** The clock time of an instant: seconds since midnight. *)
Definition secondsSinceMidnight (ms : Z) : Z := (ms / 1000) mod 86400.

(** The minutes [checkTimestamp] adds to the date of property [prop]: the
    activity's [utcStartOffset] for [dateStart], and none for another
    property or without an offset. *)
Definition offsetMinutes (a : StravaActivity) (prop : string) (off : Z) : Prop :=
  (prop = "dateStart" /\ Js.field a "utcStartOffset" = JNum (Num.ofZ off)) \/
  (off = 0 /\ (prop <> "dateStart" \/ Js.truthy (Js.field a "utcStartOffset") = false)).

(** [t] within [b] seconds of [v], both ends included. *)
Definition withinSeconds (t v b : Z) : bool := (v - b <=? t) && (t <=? v + b).

(** The half-width of the box of each operator, in degrees. *)
Definition halfWidth (op : RecipeOperator) : option Q :=
  match op with
  | Equal => Some (556 # 1000000)
  | Approximate => Some (2735 # 1000000)
  | Like => Some (5926 # 1000000)
  | _ => None
  end.

(** The point [p] in the square of half-width [r] around
    [(cLat, cLong)]. *)
Definition inBox (cLat cLong r : Q) (p : Q * Q) : bool :=
  Qle_bool (fst p) (cLat + r) && Qle_bool (cLat - r) (fst p) &&
  (Qle_bool (snd p) (cLong + r) && Qle_bool (cLong - r) (snd p)).

Definition pointValue (p : Q * Q) : JsVal := JArr [JNum (Fin (fst p)); JNum (Fin (snd p))].

(** The candidate coordinates of a location condition on [prop]: the
    decoded polyline for the property [polyline], the single pair held by
    the field otherwise. *)
Inductive Candidates `{Host} (a : StravaActivity) (prop : string) : list (Q * Q) -> Prop :=
  | candidates_polyline (s : string) (pts : list (Q * Q)) :
      prop = "polyline" ->
      Js.field a "polyline" = JStr s ->
      s <> "" ->
      polylineDecode s = map (fun p => (Fin (fst p), Fin (snd p))) pts ->
      Candidates a prop pts
  | candidates_point (p : Q * Q) :
      prop <> "polyline" ->
      Js.field a prop = pointValue p ->
      Candidates a prop [p].

(** The target of a location condition: the two numbers of its
    comma-separated value. *)
Definition target `{Host} (c : RecipeCondition) (cLat cLong : Q) : Prop :=
  Js.isNil (value c) = false /\
  Common.parsePiece (Str.split "," (Js.String_ (value c))) 0 = Fin cLat /\
  Common.parsePiece (Str.split "," (Js.String_ (value c))) 1 = Fin cLong.

(** The categorical attribute a sport-type or gear condition looks at:
    [Some s] for an activity whose sport type (or gear id) is the non-empty
    string [s], [None] for an activity without one. *)
Definition sportIs (a : StravaActivity) (o : option string) : Prop :=
  match o with
  | Some s => Js.field a "sportType" = JStr s /\ s <> ""
  | None => Js.truthy (Js.field a "sportType") = false
  end.

Definition gearIs (a : StravaActivity) (o : option string) : Prop :=
  match o with
  | Some g => exists fields,
      Js.field a "gear" = JObj fields /\ Js.assoc fields "id" = JStr g /\ g <> ""
  | None => Js.truthy (Js.field a "gear") = false
  end.

(** The verdict of [conditions.ts] on an allow-list.  Without the
    attribute [Equal] looks for the empty string in the list. *)
Definition allowed (o : option string) (op : RecipeOperator) (items : list string) : bool :=
  match op with
  | Equal => Str.member (default "" o) items
  | NotEqual =>
      match o with
      | Some s => negb (Str.member s items)
      | None => true
      end
  | _ => false
  end.

(** The outcome of the second module's [checkSportType]. *)
Definition legacyAllowed (o : option string) (op : RecipeOperator) (v : string)
  : result bool :=
  match o with
  | None => Ok false
  | Some s =>
      match op with
      | Equal => Ok (String.eqb v s || Str.member s (Str.split "," v))
      | _ => Throw InvalidOperator
      end
  end.

(** An activity of the history as the TypeScript declarations give it: a
    start date, a sport type and a numeric identifier. *)
Definition typedActivity (x : StravaActivity) : Prop :=
  (exists ms, Js.field x "dateStart" = JDate ms) /\
  (exists s, Js.field x "sportType" = JStr s) /\
  (exists n, Js.field x "id" = JNum n).

(** What a weather sample contributes for the attribute [attr]: nothing
    when the sample or the attribute is missing, the number read from the
    attribute's text otherwise. *)
Inductive Sample (attr : string) : JsVal -> option number -> Prop :=
  | sample_missing (summary : JsVal) :
      Js.truthy summary = false -> Sample attr summary None
  | sample_without (fields : list (string * JsVal)) :
      Js.isNil (Js.assoc fields attr) = true -> Sample attr (JObj fields) None
  | sample_with (fields : list (string * JsVal)) (text : string) :
      Js.assoc fields attr = JStr text ->
      Sample attr (JObj fields) (Some (Common.weatherNumber text)).

(** A sample satisfies one of the comparisons [Equal], [GreaterThan],
    [LessThan]. *)
Definition satisfies (op : RecipeOperator) (sample : option number) (v : number) : bool :=
  match sample with
  | None => false
  | Some x =>
      match op with
      | Equal => Num.eqb x v
      | GreaterThan => Num.gtb x v
      | LessThan => Num.ltb x v
      | _ => false
      end
  end.

(** The open [Like] window of the second module around a sample. *)
Definition likeWindow (x v : number) : bool :=
  let diff := Num.mul v Common.pct10 in
  Num.ltb v (Num.add x diff) && Num.gtb v (Num.sub x diff).

(** The flag an activity carries under [p]: [b] when the field holds the
    boolean [b], [false] when the field is missing. *)
Definition flagIs (a : StravaActivity) (p : string) (b : bool) : Prop :=
  Js.field a p = JBool b \/ (b = false /\ Js.isNil (Js.field a p) = true).

(** The records an activity carries under [p]: the items of the array, none
    when the field is missing. *)
Definition recordsAre (a : StravaActivity) (p : string) (items : list JsVal) : Prop :=
  Js.field a p = JArr items \/ (items = [] /\ Js.isNil (Js.field a p) = true).

(** [condition.value === true] *)
Definition isTrue (v : JsVal) : bool :=
  match v with
  | JBool true => true
  | _ => false
  end.

Definition nonEmpty {A} (l : list A) : bool :=
  match l with
  | [] => false
  | _ => true
  end.

(** The head of a list of dated activities is not after any other. *)
Definition headMin (l : list (Z * StravaActivity)) : Prop :=
  match l with
  | [] => True
  | (k, _) :: _ => forall q, In q l -> k <= fst q
  end.

(** ** Translations *)

Module TranslationNotions.
Import Translations.

(** Preferences that carry the language code [l]. *)
Definition speaking (l : string) : JsVal := JObj [("language", JStr l)].

(** Preferences that name no table: missing preferences, a missing or empty
    language, or a code that is not one of the tables. *)
Definition namesNoTable (preferences : JsVal) : Prop :=
  Js.truthy preferences = false \/
  exists language, Js.get preferences "language" = Ok language /\
    (Js.truthy language = false \/
     exists l, language = JStr l /\ own languageStrings l = None /\ inherited l = false).

(** An [id] is translated in [l]: to a text that is not empty, and to a
    capitalised text. *)
Definition translated (l id : string) : bool :=
  match translation id (speaking l) (JBool false), translation id (speaking l) (JBool true) with
  | Ok (JStr text), Ok (JStr _) => negb (String.eqb text "")
  | _, _ => false
  end.

End TranslationNotions.

(* statements-end *)

(** * Sanity checks of the embedding on concrete inputs *)

Example parseFloat_examples :
  Parse.parseFloat "45.0" = Fin (Parse.scale 450 (-1)) /\
  Parse.parseFloat " -7.25km" = Fin (Qopp (Parse.scale 725 (-2))) /\
  Parse.parseFloat "1e3" = Fin (Parse.scale 1 3) /\
  Parse.parseFloat "abc" = NaN /\ Parse.parseFloat "." = NaN /\
  Parse.parseFloat "5." = Fin (Parse.scale 5 0) /\
  Parse.parseFloat "-Infinity" = NInf.
Proof. vm_compute. repeat split. Qed.

Example parseInt_examples :
  Parse.parseInt "28800" = Num.ofZ 28800 /\ Parse.parseInt "-12.9" = Num.ofZ (-12) /\
  Parse.parseInt "0x1f" = Num.ofZ 31 /\ Parse.parseInt "x" = NaN /\
  Parse.parseInt "" = NaN.
Proof. vm_compute. repeat split. Qed.

Example toNumber_examples :
  Parse.toNumber "" = Num.ofZ 0 /\ Parse.toNumber "-" = NaN /\
  Parse.toNumber "1-2" = NaN /\ Parse.toNumber "1.2.3" = NaN /\
  Parse.toNumber "22" = Fin (Parse.scale 22 0).
Proof. vm_compute. repeat split. Qed.

Example dayjs_examples :
  (* 2023-04-14T08:01:00Z, a Friday, day 104 of the year *)
  let t := 1681459260000 in
  Dayjs.hour t = 8 /\ Dayjs.minute t = 1 /\ Dayjs.second t = 0 /\
  Dayjs.day t = 5 /\ Dayjs.year t = 2023 /\ Dayjs.dayOfYear t = 104 /\
  (* 2024-12-31T23:59:59Z and 2025-01-01T00:00:00Z *)
  Dayjs.dayOfYear 1735689599000 = 366 /\ Dayjs.year 1735689599000 = 2024 /\
  Dayjs.dayOfYear 1735689600000 = 1 /\ Dayjs.year 1735689600000 = 2025 /\
  (* 2024-02-29 and 2024-03-01, 1970-01-01, 1969-12-31T23:59:59Z *)
  Dayjs.dayOfYear 1709164800000 = 60 /\ Dayjs.dayOfYear 1709251200000 = 61 /\
  Dayjs.dayOfYear 0 = 1 /\ Dayjs.year 0 = 1970 /\
  Dayjs.year (-1000) = 1969 /\ Dayjs.dayOfYear (-1000) = 365 /\
  Dayjs.hour (-1000) = 23 /\ Dayjs.second (-1000) = 59.
Proof. vm_compute. repeat split. Qed.

Example checkText_examples :
  let a := act [("name", JStr "Morning Ride")] in
  let H := plainHost in
  Conditions.checkText a {| property := "name"; operator := Like; value := JStr "morning" |} = Ok true /\
  Conditions.checkText a {| property := "name"; operator := GreaterThan; value := JStr "x" |} = Ok false /\
  Legacy.checkText a {| property := "name"; operator := GreaterThan; value := JStr "x" |} = Throw InvalidOperator /\
  Legacy.checkText a {| property := "name"; operator := Approximate; value := JStr "x" |} = Ok true.
Proof. vm_compute. repeat split. Qed.

Example checkNumber_examples :
  let H := plainHost in
  let a := act [("distance", JNum (Num.ofZ 105))] in
  let b := act [("distance", JNum (dec 1004 (-1)))] in
  Conditions.checkNumber a (cond "distance" Equal (JNum (Num.ofZ 100))) = Ok false /\
  Legacy.checkNumber a (cond "distance" Equal (JNum (Num.ofZ 100))) = Ok false /\
  Conditions.checkNumber a (cond "distance" Approximate (JNum (Num.ofZ 100))) = Ok false /\
  Conditions.checkNumber a (cond "distance" Like (JNum (Num.ofZ 100))) = Ok true /\
  Conditions.checkNumber b (cond "distance" Equal (JStr "100")) = Ok false /\
  Legacy.checkNumber b (cond "distance" Equal (JStr "100")) = Ok true /\
  Js.toFixed1 (dec 1004 (-1)) = "100.4" /\ Js.toFixed1 (dec (-4) (-2)) = "-0.0" /\
  Js.toFixed1 (dec 25 (-2)) = "0.3" /\ Js.toFixed1 (Num.ofZ 100) = "100.0".
Proof. vm_compute. repeat split. Qed.

Example checkLocation_examples :
  let H := plainHost in
  let a := act [("locationStart", JArr [JNum (dec 450002 (-4)); JNum (dec 70001 (-4))]);
                ("locationEnd", JArr []);
                ("polyline", JStr "44.0 6.0;45.0 7.0")] in
  Conditions.checkLocation a (cond "locationStart" Equal (JStr "45.0,7.0")) = Ok true /\
  Legacy.checkLocation a (cond "locationStart" Equal (JStr "45.0,7.0")) = Ok true /\
  Conditions.checkLocation a (cond "locationStart" NotEqual (JStr "45.0,7.0")) = Ok false /\
  Legacy.checkLocation a (cond "locationStart" NotEqual (JStr "45.0,7.0")) = Throw InvalidOperator /\
  Conditions.checkLocation a (cond "polyline" Equal (JStr "44.0,6.0")) = Ok true /\
  Legacy.checkLocation a (cond "polyline" Like (JStr "44.001,6.004")) = Ok true /\
  Conditions.checkLocation a (cond "locationEnd" Equal (JStr "45.0,7.0")) = Ok false /\
  Legacy.checkLocation a (cond "locationEnd" Equal (JStr "45.0,7.0")) = Ok true /\
  Legacy.checkLocation a (cond "locationEnd" Equal (JStr "44.0,6.0")) = Ok false.
Proof. vm_compute. repeat split. Qed.

Example checkTimestamp_examples :
  let H := plainHost in
  (* 2023-04-14T06:01:00Z, two hours east of Greenwich: 08:01:00 *)
  let a := act [("dateStart", JDate 1681452060000); ("utcStartOffset", JNum (Num.ofZ 120));
                ("movingTime", JNum (Num.ofZ 3600))] in
  Conditions.checkTimestamp a (cond "dateStart" Equal (JNum (Num.ofZ 28860))) = Ok true /\
  Conditions.checkTimestamp a (cond "dateStart" Equal (JNum (Num.ofZ 28800))) = Ok true /\
  Conditions.checkTimestamp a (cond "dateStart" Equal (JNum (Num.ofZ 25200))) = Ok false /\
  Conditions.checkTimestamp a (cond "dateStart" Equal (JNum (Num.ofZ 28750))) = Ok false /\
  Legacy.checkTimestamp a (cond "dateStart" Equal (JNum (Num.ofZ 28750))) = Ok true /\
  Legacy.checkTimestamp a (cond "dateStart" Equal (JStr "25200")) = Ok false /\
  Conditions.checkTimestamp a (cond "movingTime" LessThan (JStr "3601")) = Ok true /\
  Legacy.checkTimestamp a (cond "movingTime" NotLike (JStr "1")) = Ok true.
Proof. vm_compute. repeat split. Qed.

Example checkSport_examples :
  let H := plainHost in
  let a := act [("sportType", JStr "Run"); ("gear", JObj [("id", JStr "b123")])] in
  Conditions.checkSportType a (cond "sportType" Equal (JStr "Ride,Run")) = Ok true /\
  Conditions.checkSportType a (cond "sportType" NotEqual (JStr "Ride")) = Ok true /\
  Conditions.checkSportType a (cond "sportType" Like (JStr "Run")) = Ok false /\
  Conditions.checkSportType (act []) (cond "sportType" NotEqual (JStr "Run")) = Ok true /\
  Conditions.checkSportType (act []) (cond "sportType" Equal (JStr "Ride,")) = Ok true /\
  Legacy.checkSportType a (cond "sportType" Equal (JStr "Ride,Run")) = Ok true /\
  Legacy.checkSportType a (cond "sportType" NotEqual (JStr "Ride")) = Throw InvalidOperator /\
  Legacy.checkSportType (act []) (cond "sportType" NotEqual (JStr "Ride")) = Ok false /\
  Conditions.checkGear a (cond "gear" Equal (JStr "b1,b123")) = Ok true /\
  Conditions.checkGear a (cond "gear" NotEqual (JStr "b1,b123")) = Ok false /\
  Conditions.checkGear (act []) (cond "gear" NotEqual (JStr "b1")) = Ok true /\
  Conditions.checkWeekday (act [("dateStart", JDate 1681452060000)]) (cond "weekday" Equal (JStr "1,5")) = Ok true /\
  Legacy.checkWeekday (act [("dateStart", JDate 1681452060000)]) (cond "weekday" Equal (JStr "5")) = Ok true.
Proof. vm_compute. repeat split. Qed.

Example checkWeather_examples :
  let H := plainHost in
  let w := JObj [("start", JObj [("temperature", JStr "22°C")]); ("end", JNull)] in
  let w2 := JObj [("start", JObj [("temperature", JStr "22°C")]);
                  ("end", JObj [("temperature", JStr "30°C")])] in
  let a := act [("hasLocation", JBool true)] in
  let u : UserData := act [("spotify", JObj [])] in
  @Legacy.checkWeather H (fixedServices 0 w [] []) u a (cond "weather.temperature" Equal (JStr "22")) = Ok true /\
  @Conditions.checkWeather H (fixedServices 0 w [] []) u a (cond "weather.temperature" Equal (JStr "22")) = Throw TypeError /\
  @Legacy.checkWeather H (fixedServices 0 w2 [] []) u a (cond "weather.temperature" Like (JStr "22")) = Ok false /\
  @Legacy.checkWeather H (fixedServices 0 w2 [] []) u a (cond "weather.temperature" LessThan (JStr "25")) = Ok true /\
  @Legacy.checkWeather H (fixedServices 0 w2 [] []) u a (cond "weather.temperature" Approximate (JStr "22")) = Ok false /\
  @Legacy.checkWeather H (fixedServices 0 JNull [] []) u a (cond "weather.temperature" Equal (JStr "22")) = Ok false /\
  @Conditions.checkSpotify H (fixedServices 0 w ["Thunderstruck"] []) u a (cond "spotify.track" Equal (JStr "thunderstruck")) = Ok true /\
  @Conditions.checkSpotify H (fixedServices 0 w ["Thunderstruck"] []) u a (cond "spotify.track" Like (JStr "abba")) = Ok true /\
  @Conditions.checkSpotify H (fixedServices 0 w ["Thunderstruck"] []) u a (cond "spotify.track" NotLike (JStr "abba")) = Ok false /\
  @Conditions.checkSpotify H (fixedServices 0 w [] []) u a (cond "spotify.track" NotLike (JStr "abba")) = Ok true.
Proof. vm_compute. repeat split. Qed.

(** * Properties of the checkers *)

(** Decide the operator tests between two given operators. *)
Ltac op_compute :=
  repeat match goal with
  | |- context [opIs ?a ?b] =>
      let r := eval vm_compute in (opIs a b) in change (opIs a b) with r
  end.

(** ** Strings *)

Lemma startsWith_refl (s : string) : Str.startsWith s s = true.
Proof.
  induction s as [|c s IH]; simpl; [reflexivity|].
  rewrite Ascii.eqb_refl. exact IH.
Qed.

Lemma includes_refl (s : string) : Str.includes s s = true.
Proof. destruct s; simpl; [reflexivity|]. rewrite Ascii.eqb_refl, startsWith_refl. reflexivity. Qed.

Lemma member_In (x : string) (l : list string) : Str.member x l = true <-> In x l.
Proof.
  unfold Str.member. rewrite existsb_exists. split.
  - intros (y & Hy & Heq). apply String.eqb_eq in Heq. subst. exact Hy.
  - intros Hin. exists x. split; [exact Hin | apply String.eqb_refl].
Qed.

(** ** First activity of the day *)

Section FirstOfDay.
Context `{Services}.

(** [isFirst && value] with the value [false] is false, whatever
    [isFirst] is. *)
Lemma checkFirstOfDay_equal_false user activity prop sameSport :
  forall b, Conditions.checkFirstOfDay user activity (cond prop Equal (JBool false)) sameSport = Ok b ->
            b = false.
Proof.
  intros b. unfold Conditions.checkFirstOfDay. simpl.
  destruct (Conditions.isFirstOfDay user activity sameSport) as [i| |]; simpl; try discriminate.
  rewrite andb_false_r. intros [= <-]. reflexivity.
Qed.

Lemma filterSport_typed (s : string) (l : list StravaActivity) :
  Forall typedActivity l ->
  exists l', Conditions.filterSport (JStr s) l = Ok l' /\ Forall typedActivity l'.
Proof.
  induction 1 as [|x l Hx _ (l' & IH & Hl')]; [exists []; split; [reflexivity | constructor]|].
  destruct Hx as (Hd & (t & Ht) & Hi). simpl.
  unfold Conditions.matchesSport. rewrite Ht. cbn. rewrite IH. cbn.
  destruct (String.eqb t s); cbn; eexists; split; try reflexivity; auto.
  constructor; [|exact Hl']. repeat split; eauto.
Qed.

Lemma insertByDate_typed (k : Z) (x : StravaActivity) (l : list (Z * StravaActivity)) :
  typedActivity x -> Forall (fun p => typedActivity (snd p)) l ->
  Forall (fun p => typedActivity (snd p)) (Conditions.insertByDate k x l).
Proof.
  intros Hx. induction 1 as [|[k' y] l Hy Hl IH]; simpl.
  - constructor; [exact Hx | constructor].
  - destruct (k <=? k').
    + constructor; [exact Hx|]. constructor; assumption.
    + constructor; assumption.
Qed.

Lemma sortByDate_typed (l : list StravaActivity) :
  Forall typedActivity l ->
  exists l', Conditions.sortByDate l = Ok l' /\ Forall (fun p => typedActivity (snd p)) l'.
Proof.
  induction 1 as [|x l Hx _ (l' & IH & Hl')]; [exists []; split; [reflexivity | constructor]|].
  pose proof Hx as ((ms & Hd) & _). simpl. rewrite Hd, IH. cbn.
  eexists. split; [reflexivity|]. apply insertByDate_typed; assumption.
Qed.

(** On typed data, with a history lookup that answers, the first-of-day
    computation settles on an answer. *)
Lemma isFirstOfDay_typed user activity sameSport (last : Z) :
  Js.field user "dateLastActivity" = JDate last ->
  typedActivity activity ->
  (forall q, exists l, getActivities user q = Ok l /\ Forall typedActivity l) ->
  exists isFirst, Conditions.isFirstOfDay user activity sameSport = Ok isFirst.
Proof.
  intros Hlast ((ms & Hd) & (s & Hs) & (n & Hn)) Hget.
  unfold Conditions.isFirstOfDay. rewrite Hlast, Hd. cbn -[Dayjs.dayOfYear Dayjs.year].
  match goal with |- context [if ?b then _ else Ok ?v] => destruct b; [|eauto] end.
  match goal with |- context [getActivities user ?q] => destruct (Hget q) as (l & -> & Hl) end.
  cbn -[Dayjs.dayOfYear Dayjs.year].
  assert (Hf : exists l', (if sameSport then Conditions.filterSport (Js.field activity "sportType") l
                           else Ok l) = Ok l' /\ Forall typedActivity l').
  { destruct sameSport; [rewrite Hs; apply filterSport_typed; exact Hl | eauto]. }
  destruct Hf as (l' & -> & Hl'). cbn -[Dayjs.dayOfYear Dayjs.year].
  destruct (sortByDate_typed l' Hl') as (sorted & -> & Hsorted).
  cbn -[Dayjs.dayOfYear Dayjs.year].
  destruct sorted as [|[k first] rest]; [eauto|].
  apply Forall_inv in Hsorted. destruct Hsorted as (_ & _ & (m & Hm)). simpl in Hm.
  rewrite Hm, Hn. cbn -[Dayjs.dayOfYear Dayjs.year]. eauto.
Qed.

(** On such data the check with [Equal] and the value [false] returns
    false. *)
Lemma checkFirstOfDay_equal_false_typed user activity prop sameSport (last : Z) :
  Js.field user "dateLastActivity" = JDate last ->
  typedActivity activity ->
  (forall q, exists l, getActivities user q = Ok l /\ Forall typedActivity l) ->
  Conditions.checkFirstOfDay user activity (cond prop Equal (JBool false)) sameSport = Ok false.
Proof.
  intros Hlast Ha Hget.
  destruct (isFirstOfDay_typed user activity sameSport last Hlast Ha Hget) as (i & Hi).
  unfold Conditions.checkFirstOfDay. rewrite Hi. simpl. rewrite andb_false_r. reflexivity.
Qed.

End FirstOfDay.

(** C10. With the operator [Equal] and the condition value [false],
    [checkFirstOfDay] returns false: whenever the first-of-day computation
    settles on an answer [isFirst], be it true or false, the verdict
    [isFirst && value] is false. *)
Theorem C10_first_of_day_equal_false `{Services}
    (user : UserData) (activity : StravaActivity) (prop : string)
    (sameSport isFirst : bool) :
  Conditions.isFirstOfDay user activity sameSport = Ok isFirst ->
  Conditions.checkFirstOfDay user activity (cond prop Equal (JBool false)) sameSport
  = Ok false.
Proof.
  intros Hfirst. unfold Conditions.checkFirstOfDay. rewrite Hfirst. simpl.
  rewrite andb_false_r. reflexivity.
Qed.

(** An activity of 14 April 2023 for a user last seen on 13 April: it is
    the first of its day, and the check with value [false] still fails. *)
Lemma C10_first_of_day_equal_false_witness :
  let S := fixedServices 1681500000000 JNull [] [] in
  let user : UserData := act [("dateLastActivity", JDate 1681372800000)] in
  let activity := act [("id", JNum (Num.ofZ 7)); ("dateStart", JDate 1681459260000)] in
  @Conditions.isFirstOfDay S user activity false = Ok true /\
  @Conditions.checkFirstOfDay S user activity (cond "firstOfDay" Equal (JBool false)) false
  = Ok false.
Proof.
  split.
  - vm_compute. reflexivity.
  - apply (@C10_first_of_day_equal_false _ _ _ _ false true).
    vm_compute. reflexivity.
Defined.

(** ** Music *)

Section Spotify.
Context `{Host} `{Services}.

Lemma filter_all_nonempty {A} (f : A -> bool) (l : list A) :
  (forall x, f x = true) -> l <> [] -> (0 <? length (List.filter f l))%nat = true.
Proof.
  intros Hf Hl. destruct l as [|x l]; [congruence|].
  simpl. rewrite Hf. reflexivity.
Qed.

Lemma filter_none_empty {A} (f : A -> bool) (l : list A) :
  (forall x, f x = false) -> (0 <? length (List.filter f l))%nat = false.
Proof.
  intros Hf. induction l as [|x l IH]; simpl; [reflexivity|].
  rewrite Hf. exact IH.
Qed.

Lemma filter_pos_exists {A} (f : A -> bool) (l : list A) :
  (0 <? length (List.filter f l))%nat = true <-> exists x, In x l /\ f x = true.
Proof.
  split.
  - intros Hlen. destruct (List.filter f l) as [|x r] eqn:E; [discriminate|].
    exists x. apply List.filter_In. rewrite E. left. reflexivity.
  - intros (x & Hin & Hfx).
    assert (Hx : In x (List.filter f l)) by (apply List.filter_In; auto).
    destruct (List.filter f l); [destruct Hx | reflexivity].
Qed.

Variables (user : UserData) (activity : StravaActivity) (c : RecipeCondition).
Variable tracks : list SpotifyTrack.
Hypothesis linked : Js.truthy (Js.field user "spotify") = true.
Hypothesis fetched : getActivityTracks user activity = Ok (Some tracks).
Hypothesis played : tracks <> [].
Hypothesis valued : Js.isNil (value c) = false.

(** Every title contains itself: with tracks played, [Like] succeeds and
    [NotLike] fails whatever the condition value is. *)
Lemma checkSpotify_like : operator c = Like -> Conditions.checkSpotify user activity c = Ok true.
Proof.
  intros Hop. unfold Conditions.checkSpotify, Js.toString.
  rewrite linked, fetched, valued, Hop. simpl.
  destruct tracks as [|t r]; [congruence|]. simpl.
  rewrite includes_refl. reflexivity.
Qed.

Lemma checkSpotify_notLike : operator c = NotLike -> Conditions.checkSpotify user activity c = Ok false.
Proof.
  intros Hop. unfold Conditions.checkSpotify, Js.toString.
  rewrite linked, fetched, valued, Hop. simpl.
  destruct tracks as [|t r] eqn:E; [congruence|]. rewrite <- E.
  replace (0 <? length tracks)%nat with true by (rewrite E; reflexivity).
  rewrite filter_none_empty; [reflexivity|].
  intros x. rewrite includes_refl. reflexivity.
Qed.


End Spotify.

(** C5. The music check on the track "Thunderstruck" with the condition
    [Like "abba"] and with [NotLike "abba"]: no title contains "abba", so
    [Like] should fail and [NotLike] succeed; [checkSpotify] compares each
    title with itself and answers the other way round.  [Equal] is
    compared with the condition value. *)
Theorem C5_spotify_like_compares_title_with_itself :
  let H := plainHost in
  let S := fixedServices 0 JNull ["Thunderstruck"] [] in
  let user : UserData := act [("spotify", JObj [])] in
  Str.includes (Str.toLowerCase "Thunderstruck") (Str.toLowerCase "abba") = false /\
  Conditions.checkSpotify user (act []) (cond "spotify.track" Like (JStr "abba")) = Ok true /\
  Conditions.checkSpotify user (act []) (cond "spotify.track" NotLike (JStr "abba")) = Ok false /\
  Conditions.checkSpotify user (act []) (cond "spotify.track" Equal (JStr "abba")) = Ok false /\
  Conditions.checkSpotify user (act []) (cond "spotify.track" Equal (JStr "THUNDERSTRUCK")) = Ok true.
Proof. vm_compute. repeat split. Qed.

(** ** Weather *)

Section Weather.
Context `{Host} `{Services}.

(** Once a summary is fetched, [checkWeather] of [conditions.ts] reads
    the attribute from the loop variable before the loop has given it a
    value, and raises. *)
Lemma checkWeather_raises user activity c w :
  Js.truthy (Js.field activity "hasLocation") = true ->
  getActivityWeather user activity = Ok w ->
  Js.truthy w = true ->
  Conditions.checkWeather user activity c = Throw TypeError.
Proof.
  intros Hloc Hget Hw. unfold Conditions.checkWeather.
  rewrite Hloc, Hget. simpl. rewrite Hw. reflexivity.
Qed.

Lemma checkWeather_never_true user activity c :
  Conditions.checkWeather user activity c <> Ok true.
Proof.
  unfold Conditions.checkWeather.
  destruct (Js.truthy (Js.field activity "hasLocation")); simpl; [|discriminate].
  destruct (getActivityWeather user activity) as [w| |]; simpl; try discriminate.
  destruct (Js.truthy w); simpl; discriminate.
Qed.

(** The second module: the loop over the two samples. *)
Lemma legacy_weatherLoop_sample op attr v diff summary o rest valid :
  Sample attr summary o ->
  Legacy.weatherLoop op attr v diff (summary :: rest) valid =
  match o with
  | None => Legacy.weatherLoop op attr v diff rest valid
  | Some x =>
      valid' ← Legacy.weatherStep op x v diff valid;
      Legacy.weatherLoop op attr v diff rest valid'
  end.
Proof.
  intros [s Hs | fields Hnil | fields text Htext]; cbn -[Legacy.weatherStep].
  - rewrite Hs. reflexivity.
  - rewrite Hnil. reflexivity.
  - rewrite Htext. reflexivity.
Qed.

Section LegacyWeather.
Variables (user : UserData) (activity : StravaActivity) (c : RecipeCondition).
Variables (summary : list (string * JsVal)) (first second : option number).
Hypothesis located : Js.truthy (Js.field activity "hasLocation") = true.
Hypothesis fetched : getActivityWeather user activity = Ok (JObj summary).
Hypothesis atStart :
  Sample (Common.weatherProp (property c)) (Js.assoc summary "start") first.
Hypothesis atEnd :
  Sample (Common.weatherProp (property c)) (Js.assoc summary "end") second.



End LegacyWeather.

End Weather.

(** C6. A weather summary whose start sample reads 22°C and which has no
    end sample, against the condition [weather.temperature Equal 22]: the
    start sample satisfies it, so the verdict should be true.
    [checkWeather] of [conditions.ts] raises a [TypeError] instead; the
    second module answers true.  With a start sample inside the [Like]
    window and an end sample outside, the second module answers false. *)
Theorem C6_weather_check_raises :
  let H := plainHost in
  let w := JObj [("start", JObj [("temperature", JStr "22°C")]); ("end", JNull)] in
  let w2 := JObj [("start", JObj [("temperature", JStr "22°C")]);
                  ("end", JObj [("temperature", JStr "30°C")])] in
  let a := act [("hasLocation", JBool true)] in
  let u : UserData := act [] in
  @Conditions.checkWeather H (fixedServices 0 w [] []) u a
     (cond "weather.temperature" Equal (JStr "22")) = Throw TypeError /\
  @Legacy.checkWeather H (fixedServices 0 w [] []) u a
     (cond "weather.temperature" Equal (JStr "22")) = Ok true /\
  @Legacy.checkWeather H (fixedServices 0 w2 [] []) u a
     (cond "weather.temperature" Like (JStr "22")) = Ok false.
Proof. vm_compute. repeat split. Qed.

(** ** Operators without a branch *)

Lemma quiet_false : quiet (Ok false).
Proof. left. reflexivity. Qed.

Lemma quiet_illTyped : quiet IllTyped.
Proof. right. reflexivity. Qed.

Create HintDb checks.
#[local] Hint Resolve quiet_false quiet_illTyped : checks.

Ltac by_operator c :=
  destruct (operator c) eqn:?; try discriminate; cbn; auto with checks.

Section Unhandled.
Context `{Host}.
Variables (a : StravaActivity) (c : RecipeCondition).
Hypothesis valued : Js.isNil (value c) = false.

Lemma toString_value : Js.toString (value c) = Ok (Js.String_ (value c)).
Proof. unfold Js.toString. rewrite valued. reflexivity. Qed.

Lemma checkText_unhandled :
  Conditions.handles Text (operator c) = false -> Conditions.checkText a c = Ok false.
Proof.
  intros Hop. unfold Conditions.checkText.
  destruct (Js.isNil (Js.field a (property c))) eqn:Hnil; [reflexivity|].
  unfold Js.toString. rewrite Hnil, valued. cbn.
  by_operator c.
Qed.

Lemma checkNumber_unhandled :
  Conditions.handles Number (operator c) = false -> Conditions.checkNumber a c = Ok false.
Proof.
  intros Hop. unfold Conditions.checkNumber.
  destruct (Js.isNil (Common.lengthIfArray _)); [reflexivity|]. by_operator c.
Qed.

Lemma checkSportType_unhandled :
  Conditions.handles SportType (operator c) = false -> Conditions.checkSportType a c = Ok false.
Proof.
  intros Hop. unfold Conditions.checkSportType. rewrite toString_value.
  destruct (Js.truthy (Js.field a "sportType")) eqn:Ht.
  - unfold Js.toString.
    destruct (Js.isNil (Js.field a "sportType")) eqn:Hnil.
    + destruct (Js.field a "sportType"); discriminate.
    + cbn. by_operator c.
  - cbn. by_operator c.
Qed.

Lemma get_id_ok (g : JsVal) : Js.truthy g = true -> exists v, Js.get g "id" = Ok v.
Proof. destruct g; simpl; try discriminate; eauto. Qed.

Lemma checkGear_unhandled :
  Conditions.handles Gear (operator c) = false -> Conditions.checkGear a c = Ok false.
Proof.
  intros Hop. unfold Conditions.checkGear. rewrite toString_value.
  destruct (Js.truthy (Js.field a "gear")) eqn:Ht.
  - destruct (get_id_ok _ Ht) as (v & ->). cbn. by_operator c.
  - cbn. by_operator c.
Qed.

End Unhandled.

Lemma add_NaN_r (x : number) : Num.add x NaN = NaN.
Proof. destruct x; reflexivity. Qed.

Lemma leb_NaN_r (x : number) : Num.leb x NaN = false.
Proof. destruct x; reflexivity. Qed.

Lemma near_NaN (cLat cLong : number) (pt : JsVal * JsVal) :
  quiet (Common.near cLat cLong NaN pt).
Proof.
  unfold Common.near. destruct (Js.asNumber (fst pt)) as [la| |] eqn:E; cbn.
  - rewrite add_NaN_r, leb_NaN_r. cbn. auto with checks.
  - destruct (fst pt); discriminate.
  - auto with checks.
Qed.

Lemma anyNear_NaN (cLat cLong : number) (l : list JsVal) :
  Forall isPair l -> quiet (Common.anyNear cLat cLong NaN l).
Proof.
  induction 1 as [|v l (items & ->) _ IH]; cbn; [auto with checks|].
  destruct (near_NaN cLat cLong (nth 0 items JUndefined, nth 1 items JUndefined)) as [-> | ->];
    cbn; auto with checks.
Qed.

Section UnhandledDates.
Context `{Host}.
Variables (a : StravaActivity) (c : RecipeCondition).
Hypothesis valued : Js.isNil (value c) = false.

Lemma decode_shape (v : JsVal) :
  Common.decode v = IllTyped \/ exists l, Common.decode v = Ok l /\ Forall isPair l.
Proof.
  destruct v; cbn; auto. right. eexists. split; [reflexivity|].
  apply List.Forall_forall. intros x Hx. apply in_map_iff in Hx.
  destruct Hx as (p & <- & _). eexists. reflexivity.
Qed.

Lemma coordinatesOf_shape (prop : string) :
  Js.isNil (Js.field a prop) = false ->
  Conditions.coordinatesOf a prop = IllTyped \/
  exists l, Conditions.coordinatesOf a prop = Ok l /\ Forall isPair l.
Proof.
  intros Hnil. unfold Conditions.coordinatesOf.
  destruct (String.eqb prop "polyline"); [apply decode_shape|].
  destruct (Js.field a prop) eqn:E; try discriminate; cbn; auto;
    right; eexists; (split; [reflexivity|]); repeat constructor; eexists; reflexivity.
Qed.

Lemma checkLocation_unhandled :
  Conditions.handles Location (operator c) = false -> quiet (Conditions.checkLocation a c).
Proof.
  intros Hop. unfold Conditions.checkLocation.
  destruct (Js.isNil (Js.field a (property c))) eqn:Hnil; [auto with checks|].
  destruct (coordinatesOf_shape _ Hnil) as [-> | (l & -> & Hl)]; cbn; [auto with checks|].
  unfold Js.toString. rewrite valued. cbn.
  replace (Conditions.radiusOf (operator c)) with NaN
    by (destruct (operator c); try discriminate; reflexivity).
  apply anyNear_NaN. exact Hl.
Qed.

Lemma addOffset_shape (ms : Z) (v : JsVal) :
  Common.addOffset ms v = IllTyped \/ exists t, Common.addOffset ms v = Ok t.
Proof.
  unfold Common.addOffset. destruct (Js.truthy v); [|eauto].
  destruct v as [| | | [| | |q] | | | |]; eauto.
Qed.

Lemma checkTimestamp_unhandled :
  Conditions.handles Timestamp (operator c) = false -> quiet (Conditions.checkTimestamp a c).
Proof.
  intros Hop. unfold Conditions.checkTimestamp.
  destruct (Js.isNil (Js.field a (property c))); [auto with checks|].
  destruct (Str.startsWith "pace" (property c) || Str.includes (property c) "Time");
    cbn; [by_operator c|].
  destruct (Common.utc (Js.field a (property c))) as [ms| |] eqn:E; cbn; auto with checks.
  - destruct (String.eqb (property c) "dateStart"); cbn; [|by_operator c].
    destruct (addOffset_shape ms (Js.field a "utcStartOffset")) as [-> | (t & ->)];
      cbn; [auto with checks | by_operator c].
  - destruct (Js.field a (property c)); discriminate.
Qed.

Lemma checkWeekday_unhandled :
  Conditions.handles Weekday (operator c) = false -> quiet (Conditions.checkWeekday a c).
Proof.
  intros Hop. unfold Conditions.checkWeekday.
  destruct (Js.truthy (Js.field a "dateStart")); cbn; [|auto with checks].
  destruct (Common.utc (Js.field a "dateStart")) as [ms| |] eqn:E; cbn; auto with checks.
  - destruct (addOffset_shape ms (Js.field a "utcStartOffset")) as [-> | (t & ->)];
      cbn; [auto with checks|].
    unfold Js.toString. rewrite valued. cbn. by_operator c.
  - destruct (Js.field a "dateStart"); discriminate.
Qed.

(** The second module: [checkText] rejects the two order comparisons. *)
Lemma legacy_checkText_rejects :
  Js.isNil (Js.field a (property c)) = false ->
  operator c = GreaterThan \/ operator c = LessThan ->
  Legacy.checkText a c = Throw InvalidOperator.
Proof.
  intros Hnil Hop. unfold Legacy.checkText, Js.toString.
  rewrite Hnil, valued. cbn. destruct Hop as [-> | ->]; reflexivity.
Qed.

End UnhandledDates.

(** C1, as the code has it.  In [conditions.ts] a condition whose operator
    the family's checker has no branch for raises nothing: the text, number,
    sport-type and gear checks return false, and the location, timestamp and
    weekday checks return false on every activity the embedding types (never
    true, never an error).  In the second module [checkText] raises for
    [GreaterThan] and [LessThan] on a present field. *)
Theorem C1_unhandled_operator_is_false `{Host}
    (f : Family) (a : StravaActivity) (c : RecipeCondition) :
  Conditions.handles f (operator c) = false ->
  Js.isNil (value c) = false ->
  match f with
  | Text =>
      Conditions.check f a c = Ok false /\
      (Js.isNil (Js.field a (property c)) = false ->
       operator c = GreaterThan \/ operator c = LessThan ->
       Legacy.checkText a c = Throw InvalidOperator)
  | Number | SportType | Gear => Conditions.check f a c = Ok false
  | Location | Timestamp | Weekday =>
      Conditions.check f a c = Ok false \/ Conditions.check f a c = IllTyped
  end.
Proof.
  intros Hop Hval. destruct f; cbn [Conditions.check].
  - split; [apply checkText_unhandled; assumption|].
    apply legacy_checkText_rejects; assumption.
  - apply checkNumber_unhandled; assumption.
  - apply checkLocation_unhandled; assumption.
  - apply checkTimestamp_unhandled; assumption.
  - apply checkSportType_unhandled; assumption.
  - apply checkGear_unhandled; assumption.
  - apply checkWeekday_unhandled; assumption.
Qed.

(** The activity "Morning Ride" against [{name, GreaterThan, "x"}]. *)
Lemma C1_unhandled_operator_is_false_witness :
  let H := plainHost in
  let a := act [("name", JStr "Morning Ride")] in
  let c := cond "name" GreaterThan (JStr "x") in
  Conditions.handles Text (operator c) = false /\
  Js.isNil (value c) = false /\
  Conditions.checkText a c = Ok false /\
  Legacy.checkText a c = Throw InvalidOperator.
Proof.
  intros H a c.
  pose proof (@C1_unhandled_operator_is_false H Text a c eq_refl eq_refl) as [Hc Hl].
  split; [reflexivity|]. split; [reflexivity|]. split; [exact Hc|].
  apply Hl; [reflexivity | left; reflexivity].
Defined.

(** C1 as stated fails: [checkText] of [conditions.ts] returns false, with
    no error, for [GreaterThan] on the text property [name]; and [checkText]
    of the second module returns true for [Approximate]. *)
Lemma C1_counterexample :
  let H := plainHost in
  let a := act [("name", JStr "Morning Ride")] in
  Conditions.checkText a (cond "name" GreaterThan (JStr "x")) = Ok false /\
  ~ (exists e, Conditions.checkText a (cond "name" GreaterThan (JStr "x")) = Throw e) /\
  Legacy.checkText a (cond "name" Approximate (JStr "x")) = Ok true.
Proof.
  vm_compute. repeat split. intros (e & He). discriminate.
Qed.

(** ** Numbers *)

Section Numbers.
Context `{Host}.
Variables (a : StravaActivity) (c : RecipeCondition) (x v : Q).
Hypothesis present : Js.field a (property c) = JNum (Fin x).
Hypothesis parsed : Js.parseFloat (value c) = Fin v.

Lemma approximate_window :
  Qle_bool v (x + v * (3 # 100)) && Qle_bool (x + - (v * (3 # 100))) v
  = withinClosed (v * (97 # 100)) x (v * (103 # 100)).
Proof.
  unfold withinClosed. apply eq_iff_eq_true.
  rewrite !andb_true_iff, !Qle_bool_iff. split; intros []; split; lra.
Qed.

Lemma like_window :
  Qle_bool v (x + v * (1 # 10)) && Qle_bool (x + - (v * (1 # 10))) v
  = withinClosed (v * (9 # 10)) x (v * (11 # 10)).
Proof.
  unfold withinClosed. apply eq_iff_eq_true.
  rewrite !andb_true_iff, !Qle_bool_iff. split; intros []; split; lra.
Qed.

Lemma like_window_open :
  negb (Qle_bool (x + v * (1 # 10)) v) && negb (Qle_bool v (x + - (v * (1 # 10))))
  = withinOpen (v * (9 # 10)) x (v * (11 # 10)).
Proof.
  unfold withinOpen, Qltb. apply eq_iff_eq_true.
  rewrite !andb_true_iff, !negb_true_iff, <- !not_true_iff_false, !Qle_bool_iff.
  split; intros []; split; lra.
Qed.

Lemma checkNumber_approximate :
  operator c = Approximate ->
  Conditions.checkNumber a c = Ok (withinClosed (v * (97 # 100)) x (v * (103 # 100))).
Proof.
  intros Hop. unfold Conditions.checkNumber. rewrite present, parsed, Hop. cbn.
  rewrite approximate_window. destruct (withinClosed _ _ _); reflexivity.
Qed.

Lemma checkNumber_like :
  operator c = Like ->
  Conditions.checkNumber a c = Ok (withinClosed (v * (9 # 10)) x (v * (11 # 10))).
Proof.
  intros Hop. unfold Conditions.checkNumber. rewrite present, parsed, Hop. cbn.
  rewrite like_window. destruct (withinClosed _ _ _); reflexivity.
Qed.

Lemma checkNumber_greater :
  operator c = GreaterThan -> Conditions.checkNumber a c = Ok (Qltb v x).
Proof.
  intros Hop. unfold Conditions.checkNumber. rewrite present, parsed, Hop. cbn.
  fold (Qltb v x). destruct (Qltb v x); reflexivity.
Qed.

Lemma checkNumber_less :
  operator c = LessThan -> Conditions.checkNumber a c = Ok (Qltb x v).
Proof.
  intros Hop. unfold Conditions.checkNumber. rewrite present, parsed, Hop. cbn.
  fold (Qltb x v). destruct (Qltb x v); reflexivity.
Qed.

Lemma legacy_checkNumber_like :
  operator c = Like ->
  Legacy.checkNumber a c = Ok (withinOpen (v * (9 # 10)) x (v * (11 # 10))).
Proof.
  intros Hop. unfold Legacy.checkNumber. rewrite present, parsed, Hop. cbn.
  rewrite like_window_open. reflexivity.
Qed.

Lemma legacy_checkNumber_greater :
  operator c = GreaterThan -> Legacy.checkNumber a c = Ok (Qltb v x).
Proof.
  intros Hop. unfold Legacy.checkNumber. rewrite present, parsed, Hop. cbn.
  unfold Qltb. destruct (Qle_bool x v); reflexivity.
Qed.

Lemma legacy_checkNumber_less :
  operator c = LessThan -> Legacy.checkNumber a c = Ok (Qltb x v).
Proof.
  intros Hop. unfold Legacy.checkNumber. rewrite present, parsed, Hop. cbn.
  unfold Qltb. destruct (Qle_bool v x); reflexivity.
Qed.

End Numbers.




(** ** Printing to one decimal place *)

#[local] Arguments String.append !s1 s2 : simpl nomatch.

Lemma string_of_uint_digits (d : Decimal.uint) :
  allDigits (NilEmpty.string_of_uint d) = true.
Proof. induction d; simpl; auto. Qed.

Lemma ofZ_digits (z : Z) : 0 <= z -> allDigits (Str.ofZ z) = true /\ Str.ofZ z <> "".
Proof.
  intros Hz. unfold Str.ofZ. destruct z as [|p|p]; [split; [reflexivity|discriminate]| |lia].
  simpl. unfold NilZero.string_of_uint.
  pose proof (DecimalPos.Unsigned.to_uint_nonnil p) as Hnil.
  destruct (Pos.to_uint p) eqn:E; [congruence| ..];
    (split; [apply (string_of_uint_digits (_ _)) | discriminate]).
Qed.

Lemma ofZ_inj (z z' : Z) : Str.ofZ z = Str.ofZ z' -> z = z'.
Proof.
  unfold Str.ofZ. intros Heq.
  assert (Hnn : forall n, Z.to_int n <> Decimal.Pos Decimal.Nil /\ Z.to_int n <> Decimal.Neg Decimal.Nil).
  { intros [|p|p]; simpl; split; try discriminate; intros [= Hp];
      exact (DecimalPos.Unsigned.to_uint_nonnil p Hp). }
  apply (f_equal NilZero.int_of_string) in Heq.
  rewrite !NilZero.isi in Heq by apply Hnn.
  injection Heq as Heq. apply (f_equal Z.of_int) in Heq.
  rewrite !DecimalZ.of_to in Heq. exact Heq.
Qed.

Lemma app_dot_inj (A A' B B' : string) :
  allDigits A = true -> allDigits A' = true ->
  (A ++ String "." B = A' ++ String "." B')%string -> A = A' /\ B = B'.
Proof.
  revert A'. induction A as [|ch A IH]; intros [|ch' A'] HA HA' Heq; simpl in *.
  - injection Heq as ->. auto.
  - injection Heq as <- _. discriminate.
  - injection Heq as -> _. discriminate.
  - injection Heq as -> Heq.
    apply andb_true_iff in HA as [_ HA]. apply andb_true_iff in HA' as [_ HA'].
    destruct (IH A' HA HA' Heq) as [-> ->]. auto.
Qed.

Lemma sign_inj (n n' : bool) (A A' : string) :
  (forall r, A <> String "-" r) -> (forall r, A' <> String "-" r) ->
  ((if n then "-" else "") ++ A = (if n' then "-" else "") ++ A')%string ->
  n = n' /\ A = A'.
Proof.
  intros HA HA' Heq. destruct n, n'; simpl in Heq.
  - injection Heq as ->. auto.
  - symmetry in Heq. destruct (HA' _ Heq).
  - destruct (HA _ Heq).
  - auto.
Qed.

Lemma digits_not_minus (A R : string) :
  allDigits A = true -> A <> "" -> forall r, (A ++ R)%string <> String "-" r.
Proof.
  intros HA Hne r Heq. destruct A as [|ch A]; [congruence|].
  simpl in *. injection Heq as -> _. discriminate.
Qed.

Lemma tenths_nonneg (q : Q) : 0 <= Js.tenths q.
Proof.
  unfold Js.tenths.
  assert (Hq : (0 <= Qabs q * (10 # 1) + (1 # 2))%Q).
  { pose proof (Qabs_nonneg q). nra. }
  apply Qfloor_resp_le in Hq. exact Hq.
Qed.

Lemma toFixed1_eqb `{Host} (x v : Q) :
  fixedRange x -> fixedRange v ->
  String.eqb (Js.toFixed1 (Fin x)) (Js.toFixed1 (Fin v)) = sameTenth x v.
Proof.
  unfold fixedRange, sameTenth, Qltb. intros Hx Hv. unfold Js.toFixed1. rewrite Hx, Hv.
  pose proof (tenths_nonneg x) as Tx. pose proof (tenths_nonneg v) as Tv.
  set (tx := Js.tenths x) in *. set (tv := Js.tenths v) in *.
  apply eq_iff_eq_true. rewrite String.eqb_eq, andb_true_iff, Z.eqb_eq. split.
  - intros Heq.
    destruct (ofZ_digits (tx / 10)) as [Dx Nx]; [apply Z.div_pos; lia|].
    destruct (ofZ_digits (tv / 10)) as [Dv Nv]; [apply Z.div_pos; lia|].
    apply sign_inj in Heq; try (apply digits_not_minus; assumption).
    destruct Heq as [Hs Heq]. apply app_dot_inj in Heq; try assumption.
    destruct Heq as [Hq Hr]. apply ofZ_inj in Hq. apply ofZ_inj in Hr.
    split.
    + rewrite Hs. destruct (negb (Qle_bool 0 v)); reflexivity.
    + rewrite (Z.div_mod tx 10), (Z.div_mod tv 10) by lia. congruence.
  - intros [Hs Ht]. rewrite Ht.
    destruct (negb (Qle_bool 0 x)), (negb (Qle_bool 0 v)); try discriminate; reflexivity.
Qed.

Lemma ofZ_eqb (m n : Z) : Num.eqb (Num.ofZ m) (Num.ofZ n) = (m =? n).
Proof.
  unfold Num.eqb, Num.ofZ, Qeq_bool, inject_Z. simpl. rewrite !Z.mul_1_r.
  reflexivity.
Qed.




(** ** Clock times *)

Lemma secondsOfDay_spec (ms : Z) :
  Common.secondsOfDay ms = Num.ofZ (secondsSinceMidnight ms).
Proof.
  unfold Common.secondsOfDay, secondsSinceMidnight, Dayjs.second, Dayjs.minute, Dayjs.hour.
  f_equal.
  replace (ms / 60000) with (ms / 1000 / 60) by (rewrite Z.div_div by lia; reflexivity).
  replace (ms / 3600000) with (ms / 1000 / 3600) by (rewrite Z.div_div by lia; reflexivity).
  generalize (ms / 1000). intros s.
  Z.to_euclidean_division_equations. lia.
Qed.

Lemma truncate_integer (q : Q) (z : Z) : (q == inject_Z z)%Q -> Dayjs.truncate q = z.
Proof.
  intros Hq. unfold Dayjs.truncate. destruct (Qle_bool 0 q).
  - rewrite (Qfloor_comp _ _ Hq). apply Qfloor_Z.
  - rewrite (Qceiling_comp _ _ Hq). apply Qceiling_Z.
Qed.

Lemma addOffset_minutes (ms off : Z) :
  Common.addOffset ms (JNum (Num.ofZ off)) = Ok (ms + off * 60000).
Proof.
  unfold Common.addOffset. cbn -[Qeq_bool].
  destruct (Qeq_bool (inject_Z off) 0) eqn:E; cbn.
  - apply Qeq_bool_eq in E. unfold Qeq in E. simpl in E.
    f_equal. lia.
  - f_equal. apply truncate_integer.
    rewrite !inject_Z_plus, !inject_Z_mult. reflexivity.
Qed.

Lemma within_seconds (t v b : Z) :
  Common.within (Num.ofZ t) (Num.ofZ v) b = withinSeconds t v b.
Proof.
  unfold Common.within, withinSeconds, Num.geb, Num.leb, Num.sub, Num.add, Num.neg, Num.ofZ.
  apply eq_iff_eq_true.
  rewrite !andb_true_iff, !Qle_bool_iff, !Z.leb_le.
  rewrite <- inject_Z_opp, <- !inject_Z_plus, <- !Zle_Qle. lia.
Qed.

Section ClockTime.
Context `{Host}.
Variables (a : StravaActivity) (c : RecipeCondition) (ms off v : Z).
Hypothesis notDuration : Str.includes (property c) "Time" = false.
Hypothesis present : Js.field a (property c) = JDate ms.
Hypothesis offset : offsetMinutes a (property c) off.
Hypothesis parsed : Js.parseInt (value c) = Num.ofZ v.

(** The date both modules compare: the start shifted by the offset. *)
Lemma local_date :
  (aDate ← Common.utc (Js.field a (property c));
   aDate ← (if String.eqb (property c) "dateStart"
            then Common.addOffset aDate (Js.field a "utcStartOffset")
            else Ok aDate);
   Ok (JNum (Common.secondsOfDay aDate)))
  = Ok (JNum (Num.ofZ (secondsSinceMidnight (ms + off * 60000)))).
Proof.
  rewrite present. cbn -[Common.secondsOfDay].
  destruct offset as [[Hp Ho] | [-> Hno]].
  - rewrite Hp, Ho. cbn -[Common.secondsOfDay Common.addOffset].
    rewrite addOffset_minutes. cbn -[Common.secondsOfDay].
    rewrite secondsOfDay_spec. reflexivity.
  - replace (ms + 0 * 60000) with ms by lia.
    destruct (String.eqb_spec (property c) "dateStart") as [Hp | Hp].
    + destruct Hno as [Hno | Hno]; [congruence|].
      unfold Common.addOffset. rewrite Hno. cbn -[Common.secondsOfDay].
      rewrite secondsOfDay_spec. reflexivity.
    + cbn -[Common.secondsOfDay]. rewrite secondsOfDay_spec. reflexivity.
Qed.

Lemma legacy_checkTimestamp_equal :
  operator c = Equal ->
  Legacy.checkTimestamp a c
  = Ok (withinSeconds (secondsSinceMidnight (ms + off * 60000)) v 120).
Proof.
  intros Hop. unfold Legacy.checkTimestamp.
  rewrite notDuration, local_date, parsed, Hop, present.
  cbn -[Common.within Num.ofZ]. rewrite within_seconds. reflexivity.
Qed.

Lemma checkTimestamp_equal :
  Str.startsWith "pace" (property c) = false ->
  operator c = Equal ->
  Conditions.checkTimestamp a c
  = Ok (withinSeconds (secondsSinceMidnight (ms + off * 60000)) v 60).
Proof.
  intros Hpace Hop. unfold Conditions.checkTimestamp.
  rewrite notDuration, Hpace, local_date, parsed, Hop, present.
  cbn -[Common.within Num.ofZ]. rewrite within_seconds.
  destruct (withinSeconds _ _ _); reflexivity.
Qed.

End ClockTime.




(** ** Locations *)

Lemma near_inBox (cLat cLong r : Q) (p : Q * Q) :
  Common.near (Fin cLat) (Fin cLong) (Fin r) (JNum (Fin (fst p)), JNum (Fin (snd p)))
  = Ok (inBox cLat cLong r p).
Proof.
  unfold Common.near, inBox, Qminus. cbn.
  destruct (Qle_bool (fst p) (cLat + r)), (Qle_bool (cLat + - r) (fst p)); reflexivity.
Qed.

Lemma anyNear_existsb (cLat cLong r : Q) (pts : list (Q * Q)) :
  Common.anyNear (Fin cLat) (Fin cLong) (Fin r) (map pointValue pts)
  = Ok (existsb (inBox cLat cLong r) pts).
Proof.
  induction pts as [|p pts IH]; [reflexivity|].
  cbn -[Common.near]. rewrite near_inBox. cbn.
  destruct (inBox cLat cLong r p); [reflexivity|]. exact IH.
Qed.

Lemma halfWidth_radius (op : RecipeOperator) (r : Q) :
  halfWidth op = Some r ->
  Conditions.radiusOf op = Fin r /\ Legacy.radiusOf op = Ok (Fin r) /\ (0 <= r)%Q.
Proof.
  destruct op; intros [= <-]; repeat split; discriminate.
Qed.

Lemma inBox_centre (cLat cLong r : Q) : (0 <= r)%Q -> inBox cLat cLong r (cLat, cLong) = true.
Proof.
  intros Hr. unfold inBox. simpl.
  rewrite !andb_true_iff, !Qle_bool_iff. repeat split; lra.
Qed.

Lemma decode_points `{Host} (s : string) (pts : list (Q * Q)) :
  polylineDecode s = map (fun p => (Fin (fst p), Fin (snd p))) pts ->
  Common.decode (JStr s) = Ok (map pointValue pts).
Proof.
  intros Hd. unfold Common.decode. rewrite Hd, map_map. reflexivity.
Qed.

(** Without the field there is no candidate, and the verdict is false. *)
Lemma checkLocation_missing `{Host} (a : StravaActivity) (c : RecipeCondition) :
  Js.isNil (Js.field a (property c)) = true ->
  Conditions.checkLocation a c = Ok false /\ Legacy.checkLocation a c = Ok false.
Proof.
  intros Hnil. unfold Conditions.checkLocation, Legacy.checkLocation. rewrite Hnil.
  destruct (Js.field a (property c)); try discriminate; split; reflexivity.
Qed.

Section Location.
Context `{Host}.
Variables (a : StravaActivity) (c : RecipeCondition) (cLat cLong r : Q).
Hypothesis aimed : target c cLat cLong.
Hypothesis sized : halfWidth (operator c) = Some r.

Lemma truthy_nonempty (s : string) : s <> "" -> Js.truthy (JStr s) = true.
Proof. intros Hs. simpl. destruct (String.eqb_spec s ""); [congruence | reflexivity]. Qed.

Lemma checkLocation_candidates (pts : list (Q * Q)) :
  Candidates a (property c) pts ->
  Conditions.checkLocation a c = Ok (existsb (inBox cLat cLong r) pts).
Proof.
  destruct aimed as (Hval & Hlat & Hlong).
  destruct (halfWidth_radius _ _ sized) as (Hr & _ & _).
  intros Hc. unfold Conditions.checkLocation, Conditions.coordinatesOf, Js.toString.
  rewrite Hval, Hr.
  destruct Hc as [s pts Hp Hs Hne Hd | p Hp Hf].
  - rewrite Hp, Hs. cbn -[Common.anyNear Common.decode Str.split].
    rewrite (decode_points s pts Hd). cbn -[Common.anyNear Str.split].
    rewrite Hlat, Hlong. apply anyNear_existsb.
  - rewrite Hf. apply String.eqb_neq in Hp. rewrite Hp.
    cbn -[Common.anyNear Str.split]. rewrite Hlat, Hlong.
    apply (anyNear_existsb cLat cLong r [p]).
Qed.

Lemma legacy_checkLocation_candidates (pts : list (Q * Q)) :
  Candidates a (property c) pts ->
  Legacy.checkLocation a c = Ok (existsb (inBox cLat cLong r) pts).
Proof.
  destruct aimed as (Hval & Hlat & Hlong).
  destruct (halfWidth_radius _ _ sized) as (_ & Hr & _).
  intros Hc. unfold Legacy.checkLocation, Legacy.coordinatesOf, Js.toString.
  rewrite Hval, Hr.
  destruct Hc as [s pts Hp Hs Hne Hd | p Hp Hf].
  - rewrite Hp, Hs, (truthy_nonempty s Hne).
    cbn -[Common.anyNear Common.decode Str.split].
    rewrite (decode_points s pts Hd). cbn -[Common.anyNear Str.split].
    rewrite Hlat, Hlong. apply anyNear_existsb.
  - apply String.eqb_neq in Hp.
    assert (Hfb : String.eqb (property c) "locationEnd"
                  && Js.truthy (Js.field a "polyline")
                  && negb (Js.truthy (Js.lengthOf (Js.field a "locationEnd"))) = false).
    { destruct (String.eqb_spec (property c) "locationEnd") as [Hle|Hle]; [|reflexivity].
      rewrite Hle in Hf. rewrite Hf. cbn. apply andb_false_r. }
    rewrite Hfb, Hp, Hf.
    cbn -[Common.anyNear Str.split]. rewrite Hlat, Hlong.
    apply (anyNear_existsb cLat cLong r [p]).
Qed.

End Location.



(** C7, as the code has it.  For a location condition on [locationEnd]
    whose field is an empty pair while a polyline is present, the second
    module evaluates the last point of the decoded polyline;
    [conditions.ts] has no such fallback and returns false. *)
Theorem C7_end_location_fallback `{Host}
    (a : StravaActivity) (c : RecipeCondition) (cLat cLong r : Q)
    (s : string) (pts : list (Q * Q)) (final : Q * Q) :
  property c = "locationEnd" ->
  Js.field a "locationEnd" = JArr [] ->
  Js.field a "polyline" = JStr s ->
  s <> "" ->
  polylineDecode s = map (fun p => (Fin (fst p), Fin (snd p))) (pts ++ [final]) ->
  target c cLat cLong ->
  halfWidth (operator c) = Some r ->
  Legacy.checkLocation a c = Ok (inBox cLat cLong r final) /\
  Conditions.checkLocation a c = Ok false.
Proof.
  intros Hp Hend Hpoly Hne Hd (Hval & Hlat & Hlong) Hr.
  destruct (halfWidth_radius _ _ Hr) as (Hrc & Hrl & _). split.
  - unfold Legacy.checkLocation, Legacy.coordinatesOf, Js.toString.
    rewrite Hval, Hrl, Hp, Hend, Hpoly, (truthy_nonempty s Hne).
    cbn -[Common.anyNear Common.decode Str.split List.last].
    rewrite (decode_points s _ Hd).
    cbn -[Common.anyNear Str.split List.last map]. rewrite map_app. cbn [map].
    rewrite last_last, Hlat, Hlong.
    change (Qeq_bool (inject_Z (Z.of_nat 0)) 0) with true.
    cbn -[Common.anyNear].
    change [pointValue final] with (map pointValue [final]).
    rewrite (anyNear_existsb cLat cLong r [final]). cbn [existsb].
    rewrite orb_false_r. reflexivity.
  - unfold Conditions.checkLocation, Conditions.coordinatesOf, Js.toString.
    rewrite Hval, Hp, Hend. reflexivity.
Qed.

(** An activity with an empty end location whose polyline ends at
    (45.0, 7.0), against [{locationEnd, Equal, "45.0,7.0"}]. *)
Lemma C7_end_location_fallback_witness :
  let H := plainHost in
  let a := act [("locationEnd", JArr []); ("polyline", JStr "44.0 6.0;45.0 7.0")] in
  let c := cond "locationEnd" Equal (JStr "45.0,7.0") in
  Legacy.checkLocation a c = Ok true /\ Conditions.checkLocation a c = Ok false.
Proof.
  intros H a c.
  assert (Ht : target c (Parse.scale 450 (-1)) (Parse.scale 70 (-1)))
    by (repeat split; reflexivity).
  exact (@C7_end_location_fallback H a c _ _ (556 # 1000000) "44.0 6.0;45.0 7.0"
           [(Parse.scale 440 (-1), Parse.scale 60 (-1))]
           (Parse.scale 450 (-1), Parse.scale 70 (-1))
           eq_refl eq_refl eq_refl ltac:(discriminate) eq_refl Ht eq_refl).
Defined.

(** C7 as stated fails on [conditions.ts]: the end location is empty, the
    polyline ends on the target, and the verdict is false. *)
Lemma C7_counterexample :
  let H := plainHost in
  let a := act [("locationEnd", JArr []); ("polyline", JStr "44.0 6.0;45.0 7.0")] in
  let c := cond "locationEnd" Equal (JStr "45.0,7.0") in
  List.last (polylineDecode "44.0 6.0;45.0 7.0") (NaN, NaN) = (dec 450 (-1), dec 70 (-1)) /\
  Conditions.checkLocation a c = Ok false /\
  Legacy.checkLocation a c = Ok true.
Proof. vm_compute. repeat split. Qed.

(** ** Allow-lists *)

(** [split] cuts at the commas and nowhere else: joining the pieces with
    commas gives the string back. *)
Lemma split_nonempty (sep : ascii) (s : string) : Str.split sep s <> [].
Proof.
  induction s as [|ch s IH]; simpl; [discriminate|].
  destruct (Ascii.eqb ch sep); [discriminate|].
  destruct (Str.split sep s); discriminate.
Qed.

Lemma split_concat (sep : ascii) (s : string) :
  String.concat (String sep "") (Str.split sep s) = s.
Proof.
  induction s as [|ch s IH]; [reflexivity|]. simpl.
  destruct (Ascii.eqb_spec ch sep) as [->|Hne].
  - pose proof (split_nonempty sep s) as Hs.
    destruct (Str.split sep s) as [|piece pieces] eqn:E; [congruence|].
    cbn [String.concat]. rewrite <- IH. reflexivity.
  - pose proof (split_nonempty sep s) as Hs.
    destruct (Str.split sep s) as [|piece pieces] eqn:E; [congruence|].
    rewrite <- IH. destruct pieces; reflexivity.
Qed.

Section AllowList.
Context `{Host}.
Variables (a : StravaActivity) (c : RecipeCondition).
Hypothesis valued : Js.isNil (value c) = false.

Let items := Str.split "," (Js.String_ (value c)).

Lemma nonempty_eqb (s : string) : s <> "" -> String.eqb s "" = false.
Proof. intros Hs. apply String.eqb_neq. exact Hs. Qed.

Lemma checkSportType_allowed (o : option string) :
  sportIs a o -> Conditions.checkSportType a c = Ok (allowed o (operator c) items).
Proof.
  intros Ho. unfold Conditions.checkSportType, Js.toString. rewrite valued.
  destruct o as [s|]; simpl in Ho.
  - destruct Ho as [Hf Hs]. rewrite Hf. cbn -[Str.split opIs].
    rewrite (nonempty_eqb s Hs). cbn -[Str.split opIs]. fold items.
    destruct (operator c); op_compute; cbn -[Str.split]; fold items;
      rewrite ?(nonempty_eqb s Hs); try reflexivity;
      destruct (Str.member s items); reflexivity.
  - rewrite Ho. cbn -[Str.split opIs]. fold items.
    destruct (operator c); op_compute; cbn -[Str.split]; fold items;
      try reflexivity; destruct (Str.member "" items); reflexivity.
Qed.

Lemma checkGear_allowed (o : option string) :
  gearIs a o -> Conditions.checkGear a c = Ok (allowed o (operator c) items).
Proof.
  intros Ho. unfold Conditions.checkGear, Js.toString. rewrite valued.
  destruct o as [g|]; simpl in Ho.
  - destruct Ho as (fields & Hf & Hid & Hg). rewrite Hf. cbn -[Str.split opIs].
    rewrite Hid. cbn -[Str.split opIs]. fold items.
    destruct (operator c); op_compute; cbn -[Str.split]; fold items;
      rewrite ?(nonempty_eqb g Hg); try reflexivity;
      destruct (Str.member g items); reflexivity.
  - rewrite Ho. cbn -[Str.split opIs]. fold items.
    destruct (operator c); op_compute; cbn -[Str.split]; fold items;
      try reflexivity; destruct (Str.member "" items); reflexivity.
Qed.

Lemma legacy_checkSportType_allowed (o : option string) :
  sportIs a o ->
  Legacy.checkSportType a c = legacyAllowed o (operator c) (Js.String_ (value c)).
Proof.
  intros Ho. unfold Legacy.checkSportType, Js.toString. rewrite valued.
  destruct o as [s|]; simpl in Ho.
  - destruct Ho as [Hf Hs]. rewrite Hf. cbn -[Str.split opIs].
    rewrite (nonempty_eqb s Hs). cbn -[Str.split opIs].
    destruct (operator c); op_compute; reflexivity.
  - rewrite Ho. reflexivity.
Qed.

End AllowList.

(** C9, as the code has it.  The condition value is cut at its commas into
    an allow-list.  In [conditions.ts], for the sport type and for the gear
    id: [Equal] holds iff the attribute is a member of the list, [NotEqual]
    holds iff the activity has no such attribute or it is not a member, and
    every other operator gives false.  In the second module
    [checkSportType] accepts [Equal] only (the sport type is the whole value
    or a member of the list), raises for every other operator, [NotEqual]
    included, and returns false for an activity without sport type. *)
Theorem C9_allow_lists `{Host}
    (a : StravaActivity) (c : RecipeCondition) (sport gear : option string) :
  Js.isNil (value c) = false ->
  sportIs a sport ->
  gearIs a gear ->
  let items := Str.split "," (Js.String_ (value c)) in
  String.concat "," items = Js.String_ (value c) /\
  Conditions.checkSportType a c = Ok (allowed sport (operator c) items) /\
  Conditions.checkGear a c = Ok (allowed gear (operator c) items) /\
  Legacy.checkSportType a c = legacyAllowed sport (operator c) (Js.String_ (value c)).
Proof.
  intros Hval Hs Hg items. split; [apply split_concat|]. split; [|split].
  - apply checkSportType_allowed; assumption.
  - apply checkGear_allowed; assumption.
  - apply legacy_checkSportType_allowed; assumption.
Qed.

(** A run on the bike [b123], against the list "Ride,Run" with [Equal], and
    an activity without sport type or gear against [NotEqual]. *)
Lemma C9_allow_lists_witness :
  let H := plainHost in
  let a := act [("sportType", JStr "Run"); ("gear", JObj [("id", JStr "b123")])] in
  (Conditions.checkSportType a (cond "sportType" Equal (JStr "Ride,Run")) = Ok true /\
   Conditions.checkGear a (cond "sportType" Equal (JStr "Ride,Run")) = Ok false /\
   Legacy.checkSportType a (cond "sportType" Equal (JStr "Ride,Run")) = Ok true) /\
  (Conditions.checkSportType (act []) (cond "sportType" NotEqual (JStr "Ride,Run")) = Ok true /\
   Conditions.checkGear (act []) (cond "sportType" NotEqual (JStr "Ride,Run")) = Ok true /\
   Legacy.checkSportType (act []) (cond "sportType" NotEqual (JStr "Ride,Run")) = Ok false).
Proof.
  intros H a.
  assert (Hs : sportIs a (Some "Run")) by (split; [reflexivity | discriminate]).
  assert (Hg : gearIs a (Some "b123")).
  { exists [("id", JStr "b123")]. repeat split. discriminate. }
  split.
  - exact (proj2 (@C9_allow_lists H a (cond "sportType" Equal (JStr "Ride,Run"))
                    (Some "Run") (Some "b123") eq_refl Hs Hg)).
  - exact (proj2 (@C9_allow_lists H (act []) (cond "sportType" NotEqual (JStr "Ride,Run"))
                    None None eq_refl eq_refl eq_refl)).
Defined.

(** C9 as stated fails on the second module: a run is not in the list
    "Ride", and [NotEqual] raises instead of holding; an activity without
    sport type gets false for [NotEqual]. *)
Lemma C9_counterexample :
  let H := plainHost in
  Str.member "Run" (Str.split "," "Ride") = false /\
  Legacy.checkSportType (act [("sportType", JStr "Run")])
    (cond "sportType" NotEqual (JStr "Ride")) = Throw InvalidOperator /\
  Legacy.checkSportType (act []) (cond "sportType" NotEqual (JStr "Ride")) = Ok false /\
  Conditions.checkSportType (act [("sportType", JStr "Run")])
    (cond "sportType" NotEqual (JStr "Ride")) = Ok true.
Proof. vm_compute. repeat split. Qed.

(** * Further properties of the checkers *)

(** ** Text *)

(** On the three operators both modules have a branch for, the two
    [checkText] give the same outcome on every activity and condition: the
    one that starts from [valid = false] and the one that starts from
    [valid = true]. *)
Theorem checkText_modules_agree `{Host} (a : StravaActivity) (c : RecipeCondition) :
  operator c = Equal \/ operator c = Like \/ operator c = NotLike ->
  Conditions.checkText a c = Legacy.checkText a c.
Proof.
  intros Hop. unfold Conditions.checkText, Legacy.checkText, Js.toString.
  destruct (Js.isNil (Js.field a (property c))); [reflexivity|].
  destruct (Js.isNil (value c)); [reflexivity|]. cbn -[opIs].
  set (x := Str.toLowerCase (Js.String_ (Js.field a (property c)))).
  set (y := Str.toLowerCase (Js.String_ (value c))).
  destruct Hop as [-> | [-> | ->]]; op_compute; cbn;
    destruct (String.eqb x y), (Str.includes x y); reflexivity.
Qed.

Lemma checkText_modules_agree_witness :
  let H := plainHost in
  let a := act [("name", JStr "Morning Ride")] in
  let c := cond "name" Like (JStr "RIDE") in
  Conditions.checkText a c = Legacy.checkText a c /\ Legacy.checkText a c = Ok true.
Proof.
  intros H a c. split; [|reflexivity].
  apply (@checkText_modules_agree H a c). right. left. reflexivity.
Defined.

(** In [conditions.ts], on a present text: a text that is [Equal] to the
    value is also [Like] it, and [NotLike] holds exactly when [Like] does
    not. *)
Theorem checkText_like_and_notLike `{Host}
    (a : StravaActivity) (p : string) (v : JsVal) :
  Js.isNil (Js.field a p) = false ->
  Js.isNil v = false ->
  (Conditions.checkText a (cond p Equal v) = Ok true ->
   Conditions.checkText a (cond p Like v) = Ok true) /\
  exists b, Conditions.checkText a (cond p Like v) = Ok b /\
            Conditions.checkText a (cond p NotLike v) = Ok (negb b).
Proof.
  intros Hf Hv. unfold Conditions.checkText, Js.toString. cbn -[opIs].
  rewrite Hf, Hv. cbn -[opIs]. op_compute. cbn.
  set (x := Str.toLowerCase (Js.String_ (Js.field a p))).
  set (y := Str.toLowerCase (Js.String_ v)). split.
  - destruct (String.eqb_spec x y) as [->|]; [|discriminate].
    rewrite includes_refl. reflexivity.
  - exists (Str.includes x y). destruct (Str.includes x y); split; reflexivity.
Qed.

Lemma checkText_like_and_notLike_witness :
  let H := plainHost in
  let a := act [("name", JStr "Morning Ride")] in
  Conditions.checkText a (cond "name" Like (JStr "morning ride")) = Ok true /\
  Conditions.checkText a (cond "name" NotLike (JStr "morning ride")) = Ok false.
Proof.
  intros H a.
  destruct (@checkText_like_and_notLike H a "name" (JStr "morning ride") eq_refl eq_refl)
    as [Himp (b & Hb & Hn)].
  assert (Hl : Conditions.checkText a (cond "name" Like (JStr "morning ride")) = Ok true)
    by (apply Himp; reflexivity).
  split; [exact Hl|]. rewrite Hl in Hb. injection Hb as <-. exact Hn.
Defined.

(** In the second module an operator outside the five [checkText] names
    passes: on a present text [NotEqual] and [Approximate] return true
    whatever the text and the value are. *)
Theorem legacy_checkText_default_true `{Host} (a : StravaActivity) (c : RecipeCondition) :
  Js.isNil (Js.field a (property c)) = false ->
  Js.isNil (value c) = false ->
  operator c = NotEqual \/ operator c = Approximate ->
  Legacy.checkText a c = Ok true.
Proof.
  intros Hf Hv Hop. unfold Legacy.checkText, Js.toString. rewrite Hf, Hv.
  cbn -[opIs]. destruct Hop as [-> | ->]; op_compute; reflexivity.
Qed.

Lemma legacy_checkText_default_true_witness :
  let H := plainHost in
  Legacy.checkText (act [("name", JStr "Morning Ride")])
    (cond "name" NotEqual (JStr "Morning Ride")) = Ok true.
Proof.
  intros H.
  apply (@legacy_checkText_default_true H); [reflexivity | reflexivity | left; reflexivity].
Defined.

(** ** Numbers, continued *)

Lemma field_insert (a : StravaActivity) (p : string) (v : JsVal) :
  Js.field (<[p := v]> a) p = v.
Proof. unfold Js.field. rewrite lookup_insert_eq. reflexivity. Qed.

Lemma field_insert_ne (a : StravaActivity) (p q : string) (v : JsVal) :
  p <> q -> Js.field (<[p := v]> a) q = Js.field a q.
Proof. intros Hpq. unfold Js.field. rewrite lookup_insert_ne by exact Hpq. reflexivity. Qed.

(** A field that holds a collection is checked as the number of its
    items: replacing the collection by its length changes no verdict, for
    any operator and value, in either module. *)
Theorem checkNumber_array_length `{Host}
    (a : StravaActivity) (c : RecipeCondition) (items : list JsVal) :
  Js.field a (property c) = JArr items ->
  let a' := <[property c := JNum (Num.ofZ (Z.of_nat (length items)))]> a in
  Conditions.checkNumber a c = Conditions.checkNumber a' c /\
  Legacy.checkNumber a c = Legacy.checkNumber a' c.
Proof.
  intros Hf a'. unfold Conditions.checkNumber, Legacy.checkNumber, a'.
  rewrite field_insert, Hf. split; reflexivity.
Qed.

Lemma checkNumber_array_length_witness :
  let H := plainHost in
  let a := act [("newRecords", JArr [JStr "kom"; JStr "pr"])] in
  let c := cond "newRecords" GreaterThan (JStr "1") in
  Conditions.checkNumber a c = Ok true /\ Legacy.checkNumber a c = Ok true.
Proof.
  intros H a c.
  destruct (@checkNumber_array_length H a c [JStr "kom"; JStr "pr"] eq_refl) as [-> ->].
  split; reflexivity.
Defined.

(** In [conditions.ts], on a numeric field, [NotEqual] is the negation of
    [Equal]; this holds for [NaN] on either side too. *)
Theorem checkNumber_notEqual_negates_equal `{Host}
    (a : StravaActivity) (p : string) (v : JsVal) (n : number) :
  Js.field a p = JNum n ->
  exists b, Conditions.checkNumber a (cond p Equal v) = Ok b /\
            Conditions.checkNumber a (cond p NotEqual v) = Ok (negb b).
Proof.
  intros Hf. unfold Conditions.checkNumber. cbn -[opIs Js.toFixed1 Js.parseFloat].
  rewrite Hf. cbn -[opIs Js.toFixed1 Js.parseFloat]. op_compute.
  cbn -[Js.toFixed1 Js.parseFloat].
  exists (String.eqb (Js.toFixed1 n) (Js.toFixed1 (Js.parseFloat v))).
  destruct (String.eqb _ _); split; reflexivity.
Qed.

Lemma checkNumber_notEqual_negates_equal_witness :
  let H := plainHost in
  let a := act [("distance", JNum (Num.ofZ 105))] in
  Conditions.checkNumber a (cond "distance" Equal (JStr "100")) = Ok false /\
  Conditions.checkNumber a (cond "distance" NotEqual (JStr "100")) = Ok true.
Proof.
  intros H a.
  destruct (@checkNumber_notEqual_negates_equal H a "distance" (JStr "100") _ eq_refl)
    as (b & Hb & Hn).
  assert (Hf : Conditions.checkNumber a (cond "distance" Equal (JStr "100")) = Ok false)
    by reflexivity.
  split; [exact Hf|]. rewrite Hf in Hb. injection Hb as <-. exact Hn.
Defined.

(** In [conditions.ts] the tight window lies inside the loose one: a
    number that is [Approximate] to the value is [Like] it. *)
Theorem checkNumber_approximate_implies_like `{Host}
    (a : StravaActivity) (p : string) (val : JsVal) (x v : Q) :
  Js.field a p = JNum (Fin x) ->
  Js.parseFloat val = Fin v ->
  Conditions.checkNumber a (cond p Approximate val) = Ok true ->
  Conditions.checkNumber a (cond p Like val) = Ok true.
Proof.
  intros Hx Hv.
  rewrite (checkNumber_approximate a (cond p Approximate val) x v Hx Hv eq_refl).
  rewrite (checkNumber_like a (cond p Like val) x v Hx Hv eq_refl).
  intros [= Ha]. f_equal. unfold withinClosed in *.
  apply andb_true_iff in Ha as [H1 H2]. apply Qle_bool_iff in H1, H2.
  apply andb_true_iff. split; apply Qle_bool_iff; lra.
Qed.

Lemma checkNumber_approximate_implies_like_witness :
  let H := plainHost in
  let a := act [("distance", JNum (Num.ofZ 102))] in
  Conditions.checkNumber a (cond "distance" Approximate (JStr "100")) = Ok true /\
  Conditions.checkNumber a (cond "distance" Like (JStr "100")) = Ok true.
Proof.
  intros H a.
  assert (Ha : Conditions.checkNumber a (cond "distance" Approximate (JStr "100")) = Ok true)
    by reflexivity.
  split; [exact Ha|].
  exact (@checkNumber_approximate_implies_like H a "distance" (JStr "100")
           (102 # 1) (Parse.scale 100 0) eq_refl eq_refl Ha).
Defined.

(** The window is built from [value * 0.03] or [value * 0.1], which is
    negative for a negative value: against a negative condition value no
    number is [Approximate] or [Like], not even the value itself, in either
    module. *)
Theorem checkNumber_negative_value `{Host}
    (a : StravaActivity) (p : string) (val : JsVal) (x v : Q) :
  Js.field a p = JNum (Fin x) ->
  Js.parseFloat val = Fin v ->
  (v < 0)%Q ->
  Conditions.checkNumber a (cond p Approximate val) = Ok false /\
  Conditions.checkNumber a (cond p Like val) = Ok false /\
  Legacy.checkNumber a (cond p Like val) = Ok false.
Proof.
  intros Hx Hv Hneg.
  rewrite (checkNumber_approximate a (cond p Approximate val) x v Hx Hv eq_refl).
  rewrite (checkNumber_like a (cond p Like val) x v Hx Hv eq_refl).
  rewrite (legacy_checkNumber_like a (cond p Like val) x v Hx Hv eq_refl).
  unfold withinClosed, withinOpen, Qltb.
  repeat split; f_equal; apply not_true_iff_false;
    rewrite andb_true_iff, ?negb_true_iff, <- ?not_true_iff_false, !Qle_bool_iff;
    intros []; lra.
Qed.

Lemma checkNumber_negative_value_witness :
  let H := plainHost in
  let a := act [("elevationGain", JNum (Num.ofZ (-5)))] in
  Conditions.checkNumber a (cond "elevationGain" Approximate (JStr "-5")) = Ok false /\
  Conditions.checkNumber a (cond "elevationGain" Like (JStr "-5")) = Ok false /\
  Legacy.checkNumber a (cond "elevationGain" Like (JStr "-5")) = Ok false.
Proof.
  intros H a.
  apply (@checkNumber_negative_value H a "elevationGain" (JStr "-5")
           (-5 # 1) (Qopp (Parse.scale 5 0)) eq_refl eq_refl).
  reflexivity.
Defined.

(** In the second module [checkNumber] starts from [valid = true] and has
    branches for [Like], [Equal], [GreaterThan] and [LessThan] only: on a
    present field [NotEqual], [NotLike] and [Approximate] return true
    whatever the numbers are. *)
Theorem legacy_checkNumber_default_true `{Host} (a : StravaActivity) (c : RecipeCondition) :
  Js.isNil (Js.field a (property c)) = false ->
  operator c = NotEqual \/ operator c = NotLike \/ operator c = Approximate ->
  Legacy.checkNumber a c = Ok true.
Proof.
  intros Hf Hop. unfold Legacy.checkNumber.
  assert (Hn : Js.isNil (Common.lengthIfArray (Js.field a (property c))) = false)
    by (destruct (Js.field a (property c)); try discriminate; reflexivity).
  rewrite Hn. destruct Hop as [-> | [-> | ->]]; op_compute; reflexivity.
Qed.

Lemma legacy_checkNumber_default_true_witness :
  let H := plainHost in
  Legacy.checkNumber (act [("distance", JNum (Num.ofZ 100))])
    (cond "distance" NotEqual (JStr "100")) = Ok true.
Proof.
  intros H.
  apply (@legacy_checkNumber_default_true H); [reflexivity | left; reflexivity].
Defined.

(** ** Booleans and records *)

(** [checkBoolean] never looks at the operator, and the two modules
    compute the same outcome. *)
Theorem checkBoolean_operator_free (a : StravaActivity) (c : RecipeCondition)
    (op : RecipeOperator) :
  Conditions.checkBoolean a c = Legacy.checkBoolean a (cond (property c) op (value c)).
Proof.
  unfold Conditions.checkBoolean, Legacy.checkBoolean. cbn.
  destruct (negb (Js.truthy (Js.field a (property c))) && _); [reflexivity|].
  destruct (Js.strictEquals _ _) as [[|]| |]; reflexivity.
Qed.

(** On a boolean field the check is equality of the two booleans, and a
    missing field counts as [false]. *)
Theorem checkBoolean_flag (a : StravaActivity) (c : RecipeCondition) (b v : bool) :
  flagIs a (property c) b ->
  value c = JBool v ->
  Conditions.checkBoolean a c = Ok (Bool.eqb b v).
Proof.
  intros Hb Hv. unfold Conditions.checkBoolean. rewrite Hv.
  destruct Hb as [-> | [-> Hnil]].
  - destruct b, v; reflexivity.
  - destruct (Js.field a (property c)); try discriminate; destruct v; reflexivity.
Qed.

Lemma checkBoolean_flag_witness :
  Conditions.checkBoolean (act [("commute", JBool true)]) (cond "commute" Equal (JBool true)) = Ok true /\
  Conditions.checkBoolean (act []) (cond "commute" Equal (JBool false)) = Ok true.
Proof.
  split.
  - apply (checkBoolean_flag _ (cond "commute" Equal (JBool true)) true true);
      [left; reflexivity | reflexivity].
  - apply (checkBoolean_flag _ (cond "commute" Equal (JBool false)) false false);
      [right; split; reflexivity | reflexivity].
Defined.

(** The comparison is strict: a field that is truthy without being a
    boolean (a number, a text, a list) matches neither [true] nor
    [false]. *)
Theorem checkBoolean_truthy_non_boolean (a : StravaActivity) (c : RecipeCondition)
    (v : bool) :
  Js.truthy (Js.field a (property c)) = true ->
  (forall b, Js.field a (property c) <> JBool b) ->
  value c = JBool v ->
  Conditions.checkBoolean a c = Ok false.
Proof.
  intros Ht Hnb Hv. unfold Conditions.checkBoolean. rewrite Hv, Ht. cbn.
  destruct (Js.field a (property c)) as [| | b | | | | |]; try reflexivity.
  destruct (Hnb b eq_refl).
Qed.

Lemma checkBoolean_truthy_non_boolean_witness :
  Conditions.checkBoolean (act [("commute", JNum (Num.ofZ 1))]) (cond "commute" Equal (JBool true)) = Ok false.
Proof.
  apply (checkBoolean_truthy_non_boolean _ (cond "commute" Equal (JBool true)) true);
    [reflexivity | discriminate | reflexivity].
Defined.

(** [checkNewRecords] on a list of records: the condition value [true]
    asks for a list with items, any other value for an empty or missing
    list; the operator is not looked at. *)
Theorem checkNewRecords_list (a : StravaActivity) (c : RecipeCondition)
    (items : list JsVal) :
  recordsAre a (property c) items ->
  Conditions.checkNewRecords a c = Ok (Bool.eqb (isTrue (value c)) (nonEmpty items)).
Proof.
  intros Hr. unfold Conditions.checkNewRecords, Conditions.recordsValid.
  destruct Hr as [-> | [-> Hnil]].
  - destruct items as [|x items].
    + destruct (value c) as [| | [|] | | | | |]; reflexivity.
    + destruct (value c) as [| | [|] | | | | |]; reflexivity.
  - destruct (Js.field a (property c)); try discriminate;
      destruct (value c) as [| | [|] | | | | |]; reflexivity.
Qed.

Lemma checkNewRecords_list_witness :
  Conditions.checkNewRecords (act [("newRecords", JArr [JStr "kom"])])
    (cond "newRecords" Equal (JBool true)) = Ok true /\
  Conditions.checkNewRecords (act []) (cond "newRecords" Equal (JBool true)) = Ok false /\
  Conditions.checkNewRecords (act []) (cond "newRecords" Equal (JBool false)) = Ok true.
Proof.
  split; [|split].
  - apply (checkNewRecords_list _ (cond "newRecords" Equal (JBool true)) [JStr "kom"]).
    left. reflexivity.
  - apply (checkNewRecords_list _ (cond "newRecords" Equal (JBool true)) []).
    right. split; reflexivity.
  - apply (checkNewRecords_list _ (cond "newRecords" Equal (JBool false)) []).
    right. split; reflexivity.
Defined.

(** The second module returns [valid] unconverted: for the value [true]
    and a falsy field it returns the field itself ([undefined], [null], 0 or
    the empty text) where [conditions.ts] returns [false]. *)
Theorem legacy_checkNewRecords_returns_field (a : StravaActivity) (c : RecipeCondition) :
  Js.truthy (Js.field a (property c)) = false ->
  value c = JBool true ->
  Legacy.checkNewRecords a c = Ok (Js.field a (property c)) /\
  Conditions.checkNewRecords a c = Ok false.
Proof.
  intros Hf Hv.
  unfold Conditions.checkNewRecords, Legacy.checkNewRecords, Conditions.recordsValid,
    Conditions.recordsYes, Conditions.recordsNo.
  rewrite Hv, Hf. cbn. rewrite Hf. split; reflexivity.
Qed.

Lemma legacy_checkNewRecords_returns_field_witness :
  Legacy.checkNewRecords (act []) (cond "newRecords" Equal (JBool true)) = Ok JUndefined /\
  Conditions.checkNewRecords (act []) (cond "newRecords" Equal (JBool true)) = Ok false.
Proof.
  apply (legacy_checkNewRecords_returns_field (act []) (cond "newRecords" Equal (JBool true)));
    reflexivity.
Defined.

(** ** Timestamps, continued *)

Lemma within_mono (x v : number) (b b' : Z) :
  b <= b' -> Common.within x v b = true -> Common.within x v b' = true.
Proof.
  intros Hb. unfold Common.within, Num.geb, Num.leb, Num.sub, Num.add, Num.neg, Num.ofZ.
  destruct x as [| | |x], v as [| | |v]; try (intros; assumption); try discriminate.
  assert (Hq : (inject_Z b <= inject_Z b')%Q) by (rewrite <- Zle_Qle; exact Hb).
  generalize dependent (inject_Z b). generalize dependent (inject_Z b').
  intros q' q Hq. rewrite !andb_true_iff, !Qle_bool_iff. intros [H1 H2].
  split; lra.
Qed.

Lemma if_ok (b : bool) : (if b then Ok true else Ok false) = Ok b.
Proof. destruct b; reflexivity. Qed.



Lemma ofZ_ltb (m n : Z) : Num.ltb (Num.ofZ m) (Num.ofZ n) = (m <? n).
Proof.
  unfold Num.ltb, Num.ofZ. apply eq_iff_eq_true.
  rewrite negb_true_iff, <- not_true_iff_false, Qle_bool_iff, <- Zle_Qle, Z.ltb_lt. lia.
Qed.

(** The strict comparisons on a clock-time field. *)
Lemma checkTimestamp_clock_strict `{Host}
    (a : StravaActivity) (c : RecipeCondition) (ms off v : Z) :
  Str.includes (property c) "Time" = false ->
  Str.startsWith "pace" (property c) = false ->
  Js.field a (property c) = JDate ms ->
  offsetMinutes a (property c) off ->
  Js.parseInt (value c) = Num.ofZ v ->
  let t := secondsSinceMidnight (ms + off * 60000) in
  (operator c = GreaterThan ->
   Conditions.checkTimestamp a c = Ok (v <? t) /\ Legacy.checkTimestamp a c = Ok (v <? t)) /\
  (operator c = LessThan ->
   Conditions.checkTimestamp a c = Ok (t <? v) /\ Legacy.checkTimestamp a c = Ok (t <? v)).
Proof.
  intros Htime Hpace Hdate Hoff Hv t.
  pose proof (local_date a c ms off Hdate Hoff) as Hlocal.
  split; intros Hop;
    unfold Conditions.checkTimestamp, Legacy.checkTimestamp;
    rewrite Htime, Hpace, Hlocal, Hv, Hop, Hdate;
    cbn -[Common.within Num.ofZ Num.ltb Num.gtb opIs]; op_compute;
    cbn -[Common.within Num.ofZ Num.ltb Num.gtb];
    unfold Num.gtb; rewrite ?ofZ_ltb, ?if_ok; split; reflexivity.
Qed.

(** On a clock-time field the two modules agree on every operator but
    [Equal]: with [t] the seconds since local midnight, [Approximate] is
    within 600 s, [Like] within 1800 s, and [GreaterThan] and [LessThan]
    are strict. *)
Theorem checkTimestamp_clock_operators `{Host}
    (a : StravaActivity) (c : RecipeCondition) (ms off v : Z) :
  Str.includes (property c) "Time" = false ->
  Str.startsWith "pace" (property c) = false ->
  Js.field a (property c) = JDate ms ->
  offsetMinutes a (property c) off ->
  Js.parseInt (value c) = Num.ofZ v ->
  let t := secondsSinceMidnight (ms + off * 60000) in
  let both r := Conditions.checkTimestamp a c = Ok r /\ Legacy.checkTimestamp a c = Ok r in
  match operator c with
  | Approximate => both (withinSeconds t v 600)
  | Like => both (withinSeconds t v 1800)
  | GreaterThan => both (v <? t)
  | LessThan => both (t <? v)
  | _ => True
  end.
Proof.
  intros Htime Hpace Hdate Hoff Hv t both.
  pose proof (local_date a c ms off Hdate Hoff) as Hlocal.
  destruct (operator c) eqn:Hop; try exact I; unfold both;
    unfold Conditions.checkTimestamp, Legacy.checkTimestamp;
    rewrite Htime, Hpace, Hlocal, Hv, Hop, Hdate;
    cbn -[Common.within Num.ofZ Num.ltb Num.gtb opIs]; op_compute;
    cbn -[Common.within Num.ofZ Num.ltb Num.gtb];
    unfold Num.gtb; rewrite ?within_seconds, ?ofZ_ltb, ?if_ok; split; reflexivity.
Qed.

Lemma checkTimestamp_clock_operators_witness :
  let H := plainHost in
  let a := act [("dateStart", JDate 1681452060000); ("utcStartOffset", JNum (Num.ofZ 120))] in
  let c := cond "dateStart" GreaterThan (JStr "25200") in
  Conditions.checkTimestamp a c = Ok true /\ Legacy.checkTimestamp a c = Ok true.
Proof.
  intros H a c.
  assert (Hoff : offsetMinutes a "dateStart" 120) by (left; split; reflexivity).
  exact (@checkTimestamp_clock_operators H a c 1681452060000 120 25200
           eq_refl eq_refl eq_refl Hoff eq_refl).
Defined.

(** The clock time lies between 0 and 86399: no start is [GreaterThan]
    86399 or [LessThan] 0, whatever the date and the offset, in either
    module. *)
Theorem checkTimestamp_clock_range `{Host}
    (a : StravaActivity) (c : RecipeCondition) (ms off v : Z) :
  Str.includes (property c) "Time" = false ->
  Str.startsWith "pace" (property c) = false ->
  Js.field a (property c) = JDate ms ->
  offsetMinutes a (property c) off ->
  Js.parseInt (value c) = Num.ofZ v ->
  (operator c = GreaterThan /\ 86399 <= v) \/ (operator c = LessThan /\ v <= 0) ->
  Conditions.checkTimestamp a c = Ok false /\ Legacy.checkTimestamp a c = Ok false.
Proof.
  intros Htime Hpace Hdate Hoff Hv Hcase.
  destruct (checkTimestamp_clock_strict a c ms off v Htime Hpace Hdate Hoff Hv) as [Hgt Hlt].
  cbv zeta in Hgt, Hlt.
  assert (Hrange : 0 <= secondsSinceMidnight (ms + off * 60000) < 86400)
    by (unfold secondsSinceMidnight; apply Z.mod_pos_bound; lia).
  destruct Hcase as [[Hop Hb] | [Hop Hb]].
  - specialize (Hgt Hop).
    replace (v <? secondsSinceMidnight (ms + off * 60000)) with false in Hgt
      by (symmetry; apply Z.ltb_ge; lia).
    exact Hgt.
  - specialize (Hlt Hop).
    replace (secondsSinceMidnight (ms + off * 60000) <? v) with false in Hlt
      by (symmetry; apply Z.ltb_ge; lia).
    exact Hlt.
Qed.

(** A start one second before midnight, 1969-12-31T23:59:59Z, is not
    after 86399. *)
Lemma checkTimestamp_clock_range_witness :
  let H := plainHost in
  let a := act [("dateStart", JDate (-1000))] in
  let c := cond "dateStart" GreaterThan (JStr "86399") in
  Conditions.checkTimestamp a c = Ok false /\ Legacy.checkTimestamp a c = Ok false.
Proof.
  intros H a c.
  assert (Hoff : offsetMinutes a "dateStart" 0)
    by (right; split; [reflexivity | right; reflexivity]).
  apply (@checkTimestamp_clock_range H a c (-1000) 0 86399
           eq_refl eq_refl eq_refl Hoff eq_refl).
  left. split; [reflexivity | lia].
Defined.

(** A pace or a duration is compared as it is.  In [conditions.ts] the
    three windows are 1, 20 and 60 for a property that starts with "pace"
    and 60, 600 and 1800 for a duration. *)
Theorem checkTimestamp_raw_windows `{Host}
    (a : StravaActivity) (p : string) (val : JsVal) (x v : Z) :
  Str.startsWith "pace" p || Str.includes p "Time" = true ->
  Js.field a p = JNum (Num.ofZ x) ->
  Js.parseInt val = Num.ofZ v ->
  let pace := Str.startsWith "pace" p in
  Conditions.checkTimestamp a (cond p Equal val)
  = Ok (withinSeconds x v (if pace then 1 else 60)) /\
  Conditions.checkTimestamp a (cond p Approximate val)
  = Ok (withinSeconds x v (if pace then 20 else 600)) /\
  Conditions.checkTimestamp a (cond p Like val)
  = Ok (withinSeconds x v (if pace then 60 else 1800)).
Proof.
  intros Hraw Hf Hv pace. unfold Conditions.checkTimestamp.
  cbn [property operator value cond]. rewrite Hraw, Hf, Hv. fold pace.
  cbn -[Common.within Num.ofZ opIs]. op_compute. cbn -[Common.within Num.ofZ].
  rewrite !within_seconds, !if_ok. repeat split.
Qed.

(** A pace of 301 s/km against 300: equal within a second. *)
Lemma checkTimestamp_raw_windows_witness :
  let H := plainHost in
  let a := act [("paceAvg", JNum (Num.ofZ 301)); ("movingTime", JNum (Num.ofZ 3650))] in
  Conditions.checkTimestamp a (cond "paceAvg" Equal (JStr "300")) = Ok true /\
  Conditions.checkTimestamp a (cond "movingTime" Equal (JStr "3600")) = Ok true.
Proof.
  intros H a. split.
  - exact (proj1 (@checkTimestamp_raw_windows H a "paceAvg" (JStr "300") 301 300
                    eq_refl eq_refl eq_refl)).
  - exact (proj1 (@checkTimestamp_raw_windows H a "movingTime" (JStr "3600") 3650 3600
                    eq_refl eq_refl eq_refl)).
Defined.

(** The second module tests the field for truthiness, not for absence: a
    duration of 0 is treated as missing and fails every condition, where
    [conditions.ts] compares it. *)
Theorem legacy_checkTimestamp_zero `{Host}
    (a : StravaActivity) (p : string) (op : RecipeOperator) (val : JsVal) (v : Z) :
  Js.field a p = JNum (Num.ofZ 0) ->
  Str.includes p "Time" = true ->
  Js.parseInt val = Num.ofZ v ->
  0 < v ->
  Legacy.checkTimestamp a (cond p op val) = Ok false /\
  Conditions.checkTimestamp a (cond p LessThan val) = Ok true.
Proof.
  intros Hf Htime Hv Hpos. split.
  - unfold Legacy.checkTimestamp. cbn [property operator value cond]. rewrite Hf. reflexivity.
  - unfold Conditions.checkTimestamp. cbn [property operator value cond].
    rewrite Htime, orb_true_r, Hf, Hv.
    cbn -[Num.ofZ Num.ltb opIs]. op_compute. cbn -[Num.ofZ Num.ltb].
    rewrite ofZ_ltb.
    replace (0 <? v) with true by (symmetry; apply Z.ltb_lt; exact Hpos). reflexivity.
Qed.

Lemma legacy_checkTimestamp_zero_witness :
  let H := plainHost in
  let a := act [("movingTime", JNum (Num.ofZ 0))] in
  Legacy.checkTimestamp a (cond "movingTime" LessThan (JStr "60")) = Ok false /\
  Conditions.checkTimestamp a (cond "movingTime" LessThan (JStr "60")) = Ok true.
Proof.
  intros H a.
  apply (@legacy_checkTimestamp_zero H a "movingTime" LessThan (JStr "60") 60);
    [reflexivity | reflexivity | reflexivity | lia].
Defined.

(** ** Weekdays *)

Lemma day_range (ms : Z) : 0 <= Dayjs.day ms < 7.
Proof. unfold Dayjs.day. apply Z.mod_pos_bound. lia. Qed.

Lemma weekday_text_member (d : Z) (v : string) :
  0 <= d < 7 ->
  String.eqb v (Str.ofZ d) || Str.member (Str.ofZ d) (Str.split "," v)
  = Str.member (Str.ofZ d) (Str.split "," v).
Proof.
  intros Hd. destruct (String.eqb_spec v (Str.ofZ d)) as [-> | _]; [|reflexivity].
  assert (Hcases : d = 0 \/ d = 1 \/ d = 2 \/ d = 3 \/ d = 4 \/ d = 5 \/ d = 6) by lia.
  destruct Hcases as [-> | [-> | [-> | [-> | [-> | [-> | ->]]]]]]; reflexivity.
Qed.

Lemma weekday_date (a : StravaActivity) (ms off : Z) :
  Js.field a "dateStart" = JDate ms ->
  offsetMinutes a "dateStart" off ->
  (aDate ← Common.utc (Js.field a "dateStart");
   Common.addOffset aDate (Js.field a "utcStartOffset")) = Ok (ms + off * 60000).
Proof.
  intros Hd Hoff. rewrite Hd. cbn.
  destruct Hoff as [[_ Ho] | [-> [Hp | Hno]]].
  - rewrite Ho. apply addOffset_minutes.
  - congruence.
  - unfold Common.addOffset. rewrite Hno. f_equal. lia.
Qed.

(** [checkWeekday] on a dated activity: with [d] the day of the week of
    the local start, 0 for Sunday to 6 for Saturday, [Equal] holds iff [d]
    is in the comma-separated list, in both modules; [NotEqual] is its
    negation in [conditions.ts] and an error in the second module. *)
Theorem checkWeekday_day `{Host}
    (a : StravaActivity) (p : string) (v : JsVal) (ms off : Z) :
  Js.field a "dateStart" = JDate ms ->
  offsetMinutes a "dateStart" off ->
  Js.isNil v = false ->
  let d := Dayjs.day (ms + off * 60000) in
  let listed := Str.member (Str.ofZ d) (Str.split "," (Js.String_ v)) in
  0 <= d < 7 /\
  Conditions.checkWeekday a (cond p Equal v) = Ok listed /\
  Legacy.checkWeekday a (cond p Equal v) = Ok listed /\
  Conditions.checkWeekday a (cond p NotEqual v) = Ok (negb listed) /\
  Legacy.checkWeekday a (cond p NotEqual v) = Throw InvalidOperator.
Proof.
  intros Hd Hoff Hv d listed. split; [apply day_range|].
  pose proof (weekday_date a ms off Hd Hoff) as Hdate.
  rewrite Hd in Hdate. cbn in Hdate.
  unfold Conditions.checkWeekday, Legacy.checkWeekday, Js.toString.
  cbn [property operator value cond]. rewrite Hd, Hv.
  cbn -[Common.addOffset Str.split Str.member Str.ofZ Dayjs.day opIs].
  rewrite Hdate. cbn -[Str.split Str.member Str.ofZ Dayjs.day opIs]. op_compute.
  cbn -[Str.split Str.member Str.ofZ Dayjs.day].
  fold d. rewrite (weekday_text_member d _ (day_range _)). fold listed.
  rewrite !if_ok. destruct listed; repeat split.
Qed.

(** 14 April 2023 was a Friday. *)
Lemma checkWeekday_day_witness :
  let H := plainHost in
  let a := act [("dateStart", JDate 1681459260000)] in
  Conditions.checkWeekday a (cond "weekday" Equal (JStr "1,5")) = Ok true /\
  Legacy.checkWeekday a (cond "weekday" Equal (JStr "1,5")) = Ok true /\
  Conditions.checkWeekday a (cond "weekday" NotEqual (JStr "1,5")) = Ok false /\
  Legacy.checkWeekday a (cond "weekday" NotEqual (JStr "1,5")) = Throw InvalidOperator.
Proof.
  intros H a.
  assert (Hoff : offsetMinutes a "dateStart" 0)
    by (right; split; [reflexivity | right; reflexivity]).
  exact (proj2 (@checkWeekday_day H a "weekday" (JStr "1,5") 1681459260000 0
                  eq_refl Hoff eq_refl)).
Defined.

Lemma day_week_shift (ms k : Z) : Dayjs.day (ms + k * 604800000) = Dayjs.day ms.
Proof.
  unfold Dayjs.day, Dayjs.msPerDay.
  replace (ms + k * 604800000) with (ms + (7 * k) * 86400000) by lia.
  rewrite Z.div_add by lia.
  replace (ms / 86400000 + 7 * k + 4) with (ms / 86400000 + 4 + k * 7) by lia.
  apply Z.mod_add. lia.
Qed.

(** Moving the start by whole weeks changes no weekday verdict, for any
    operator, in either module. *)
Theorem checkWeekday_week_shift `{Host}
    (a : StravaActivity) (c : RecipeCondition) (ms off k : Z) :
  Js.field a "dateStart" = JDate ms ->
  offsetMinutes a "dateStart" off ->
  let a' := <["dateStart" := JDate (ms + k * 604800000)]> a in
  Conditions.checkWeekday a' c = Conditions.checkWeekday a c /\
  Legacy.checkWeekday a' c = Legacy.checkWeekday a c.
Proof.
  intros Hd Hoff a'.
  assert (Hd' : Js.field a' "dateStart" = JDate (ms + k * 604800000))
    by apply field_insert.
  assert (Hoff' : offsetMinutes a' "dateStart" off).
  { unfold offsetMinutes, a' in *. rewrite field_insert_ne by discriminate. exact Hoff. }
  pose proof (weekday_date a ms off Hd Hoff) as E.
  pose proof (weekday_date a' _ off Hd' Hoff') as E'.
  unfold Conditions.checkWeekday, Legacy.checkWeekday.
  rewrite Hd in *. rewrite Hd' in *.
  cbn -[Common.addOffset Dayjs.day Str.ofZ Str.split Str.member opIs] in *.
  rewrite E, E'.
  replace (ms + k * 604800000 + off * 60000) with (ms + off * 60000 + k * 604800000) by lia.
  cbn -[Dayjs.day Str.ofZ Str.split Str.member opIs].
  rewrite day_week_shift. split; reflexivity.
Qed.

Lemma checkWeekday_week_shift_witness :
  let H := plainHost in
  let a := act [("dateStart", JDate 1681459260000)] in
  let a' := <["dateStart" := JDate (1681459260000 + 3 * 604800000)]> a in
  Conditions.checkWeekday a' (cond "weekday" Equal (JStr "5")) = Ok true.
Proof.
  intros H a a'.
  assert (Hoff : offsetMinutes a "dateStart" 0)
    by (right; split; [reflexivity | right; reflexivity]).
  destruct (@checkWeekday_week_shift H a (cond "weekday" Equal (JStr "5"))
              1681459260000 0 3 eq_refl Hoff) as [E _].
  unfold a'. rewrite E. reflexivity.
Defined.

(** ** Locations, continued *)

Lemma inBox_mono (cLat cLong r r' : Q) (p : Q * Q) :
  (r <= r')%Q -> inBox cLat cLong r p = true -> inBox cLat cLong r' p = true.
Proof.
  intros Hr. unfold inBox.
  rewrite !andb_true_iff, !Qle_bool_iff. intros [[H1 H2] [H3 H4]].
  repeat split; lra.
Qed.

Lemma existsb_inBox_mono (cLat cLong r r' : Q) (pts : list (Q * Q)) :
  (r <= r')%Q ->
  existsb (inBox cLat cLong r) pts = true -> existsb (inBox cLat cLong r') pts = true.
Proof.
  intros Hr. rewrite !existsb_exists. intros (p & Hin & Hp).
  exists p. split; [exact Hin | eapply inBox_mono; eassumption].
Qed.

(** The three boxes are nested in both modules: a candidate set that is
    [Equal] to the target is [Approximate] to it, and one that is
    [Approximate] is [Like]. *)
Theorem checkLocation_boxes_nest `{Host}
    (a : StravaActivity) (p : string) (val : JsVal) (cLat cLong : Q)
    (pts : list (Q * Q)) :
  target (cond p Equal val) cLat cLong ->
  Candidates a p pts ->
  ((Conditions.checkLocation a (cond p Equal val) = Ok true ->
    Conditions.checkLocation a (cond p Approximate val) = Ok true) /\
   (Conditions.checkLocation a (cond p Approximate val) = Ok true ->
    Conditions.checkLocation a (cond p Like val) = Ok true)) /\
  ((Legacy.checkLocation a (cond p Equal val) = Ok true ->
    Legacy.checkLocation a (cond p Approximate val) = Ok true) /\
   (Legacy.checkLocation a (cond p Approximate val) = Ok true ->
    Legacy.checkLocation a (cond p Like val) = Ok true)).
Proof.
  intros Ht Hc.
  rewrite (checkLocation_candidates a (cond p Equal val) cLat cLong _ Ht eq_refl pts Hc).
  rewrite (checkLocation_candidates a (cond p Approximate val) cLat cLong _ Ht eq_refl pts Hc).
  rewrite (checkLocation_candidates a (cond p Like val) cLat cLong _ Ht eq_refl pts Hc).
  rewrite (legacy_checkLocation_candidates a (cond p Equal val) cLat cLong _ Ht eq_refl pts Hc).
  rewrite (legacy_checkLocation_candidates a (cond p Approximate val) cLat cLong _ Ht eq_refl pts Hc).
  rewrite (legacy_checkLocation_candidates a (cond p Like val) cLat cLong _ Ht eq_refl pts Hc).
  repeat split; intros [= Hex]; f_equal; revert Hex; apply existsb_inBox_mono;
    unfold Qle; simpl; lia.
Qed.

Lemma checkLocation_boxes_nest_witness :
  let H := plainHost in
  let p := (Parse.scale 450002 (-4), Parse.scale 70001 (-4)) in
  let a := act [("locationStart", pointValue p)] in
  Conditions.checkLocation a (cond "locationStart" Approximate (JStr "45.0,7.0")) = Ok true /\
  Conditions.checkLocation a (cond "locationStart" Like (JStr "45.0,7.0")) = Ok true.
Proof.
  intros H p a.
  assert (Ht : target (cond "locationStart" Equal (JStr "45.0,7.0"))
                 (Parse.scale 450 (-1)) (Parse.scale 70 (-1)))
    by (repeat split; reflexivity).
  assert (Hc : Candidates a "locationStart" [p])
    by (apply candidates_point; [discriminate | reflexivity]).
  destruct (@checkLocation_boxes_nest H a "locationStart" (JStr "45.0,7.0") _ _ [p] Ht Hc)
    as [[He Ha] _].
  assert (E : Conditions.checkLocation a (cond "locationStart" Equal (JStr "45.0,7.0")) = Ok true)
    by reflexivity.
  split; [exact (He E) | exact (Ha (He E))].
Defined.

Lemma leb_NaN_l (x : number) : Num.leb NaN x = false.
Proof. reflexivity. Qed.

Lemma near_NaN_target (cLat cLong : number) (r : Q) (p : Q * Q) :
  cLat = NaN \/ cLong = NaN ->
  Common.near cLat cLong (Fin r) (JNum (Fin (fst p)), JNum (Fin (snd p))) = Ok false.
Proof.
  intros [-> | ->]; unfold Common.near; cbn.
  - reflexivity.
  - destruct cLat; cbn; try reflexivity.
    destruct (Qle_bool _ _ && Qle_bool _ _); reflexivity.
Qed.

Lemma anyNear_NaN_target (cLat cLong : number) (r : Q) (pts : list (Q * Q)) :
  cLat = NaN \/ cLong = NaN ->
  Common.anyNear cLat cLong (Fin r) (map pointValue pts) = Ok false.
Proof.
  intros Hn. induction pts as [|p pts IH]; [reflexivity|].
  cbn -[Common.near]. rewrite (near_NaN_target cLat cLong r p Hn). exact IH.
Qed.

(** A condition value that does not give two numbers (no comma, or a piece
    that is not a number) raises nothing: with a valid operator the verdict
    is false for every candidate, in both modules. *)
Theorem checkLocation_unparsable_target `{Host}
    (a : StravaActivity) (c : RecipeCondition) (r : Q) (pts : list (Q * Q)) :
  Js.isNil (value c) = false ->
  Common.parsePiece (Str.split "," (Js.String_ (value c))) 0 = NaN \/
  Common.parsePiece (Str.split "," (Js.String_ (value c))) 1 = NaN ->
  halfWidth (operator c) = Some r ->
  Candidates a (property c) pts ->
  Conditions.checkLocation a c = Ok false /\ Legacy.checkLocation a c = Ok false.
Proof.
  intros Hval Hnan Hr Hc.
  destruct (halfWidth_radius _ _ Hr) as (Hrc & Hrl & _).
  unfold Conditions.checkLocation, Conditions.coordinatesOf,
    Legacy.checkLocation, Legacy.coordinatesOf, Js.toString.
  rewrite Hval, Hrc, Hrl.
  destruct Hc as [s pts Hp Hs Hne Hd | p Hp Hf].
  - rewrite Hp, Hs, (truthy_nonempty s Hne).
    cbn -[Common.anyNear Common.decode Str.split Common.parsePiece].
    rewrite (decode_points s pts Hd).
    cbn -[Common.anyNear Str.split Common.parsePiece].
    rewrite (anyNear_NaN_target _ _ r pts Hnan). split; reflexivity.
  - apply String.eqb_neq in Hp.
    assert (Hfb : String.eqb (property c) "locationEnd"
                  && Js.truthy (Js.field a "polyline")
                  && negb (Js.truthy (Js.lengthOf (Js.field a "locationEnd"))) = false).
    { destruct (String.eqb_spec (property c) "locationEnd") as [Hle|Hle]; [|reflexivity].
      rewrite Hle in Hf. rewrite Hf. cbn. apply andb_false_r. }
    rewrite Hfb, Hp, Hf.
    cbn -[Common.anyNear Str.split Common.parsePiece].
    split; exact (anyNear_NaN_target _ _ r [p] Hnan).
Qed.

(** The value "45.0" has no longitude. *)
Lemma checkLocation_unparsable_target_witness :
  let H := plainHost in
  let p := (Parse.scale 450 (-1), Parse.scale 70 (-1)) in
  let a := act [("locationStart", pointValue p)] in
  let c := cond "locationStart" Equal (JStr "45.0") in
  Conditions.checkLocation a c = Ok false /\ Legacy.checkLocation a c = Ok false.
Proof.
  intros H p a c.
  assert (Hc : Candidates a (property c) [p])
    by (apply candidates_point; [discriminate | reflexivity]).
  apply (@checkLocation_unparsable_target H a c (556 # 1000000) [p] eq_refl);
    [right; reflexivity | reflexivity | exact Hc].
Defined.

(** ** Weather, continued *)



(** When the weather lookup fails, the second module answers false and
    [conditions.ts] lets the failure through. *)
Theorem checkWeather_lookup_failure `{Host} `{Services}
    (user : UserData) (activity : StravaActivity) (c : RecipeCondition) (e : exn) :
  Js.truthy (Js.field activity "hasLocation") = true ->
  getActivityWeather user activity = Throw e ->
  Legacy.checkWeather user activity c = Ok false /\
  Conditions.checkWeather user activity c = Throw e.
Proof.
  intros Hloc Hget. unfold Legacy.checkWeather, Conditions.checkWeather.
  rewrite Hloc, Hget. split; reflexivity.
Qed.

Lemma checkWeather_lookup_failure_witness :
  let H := plainHost in
  let S := failingServices in
  let a := act [("hasLocation", JBool true)] in
  Legacy.checkWeather (act []) a (cond "weather.temperature" Equal (JStr "22")) = Ok false /\
  Conditions.checkWeather (act []) a (cond "weather.temperature" Equal (JStr "22")) = Throw TypeError.
Proof.
  intros H S a.
  apply (@checkWeather_lookup_failure H S (act []) a _ TypeError); reflexivity.
Defined.

(** The second module's [checkWeather] runs inside [try ... catch]: it
    never raises, neither for an invalid operator, nor for an attribute
    that is not a text, nor for a failed lookup. *)
Theorem legacy_checkWeather_never_raises `{Host} `{Services}
    (user : UserData) (activity : StravaActivity) (c : RecipeCondition) (e : exn) :
  Legacy.checkWeather user activity c <> Throw e.
Proof.
  unfold Legacy.checkWeather.
  destruct (negb (Js.truthy (Js.field activity "hasLocation"))); [discriminate|].
  match goal with |- Js.catchFalse ?m <> _ => destruct m end; discriminate.
Qed.

Lemma keepNumeric_app (s t : string) :
  Common.keepNumeric (s ++ t) = (Common.keepNumeric s ++ Common.keepNumeric t)%string.
Proof.
  unfold Common.keepNumeric. induction s as [|ch s IH]; [reflexivity|].
  cbn [String.append Str.filter]. rewrite IH.
  destruct (Str.isDigit ch || Ascii.eqb ch "." || Ascii.eqb ch "-"); reflexivity.
Qed.

Lemma append_empty_r (s : string) : (s ++ "")%string = s.
Proof. induction s as [|ch s IH]; [reflexivity|]. cbn [String.append]. rewrite IH. reflexivity. Qed.

(** A unit around the number does not matter: text without digits, dots
    and minus signs, put before or after a weather value, leaves the
    number that is read unchanged. *)
Theorem weatherNumber_ignores_unit (text unit : string) :
  Common.keepNumeric unit = "" ->
  Common.weatherNumber (text ++ unit) = Common.weatherNumber text /\
  Common.weatherNumber (unit ++ text) = Common.weatherNumber text.
Proof.
  intros Hu. unfold Common.weatherNumber.
  rewrite !keepNumeric_app, Hu, append_empty_r. split; reflexivity.
Qed.

Lemma weatherNumber_ignores_unit_witness :
  Common.weatherNumber ("-3.5" ++ " °C") = Fin (Qopp (Parse.scale 35 (-1))) /\
  Common.weatherNumber (" °C" ++ "-3.5") = Fin (Qopp (Parse.scale 35 (-1))).
Proof.
  destruct (weatherNumber_ignores_unit "-3.5" " °C" eq_refl) as [-> ->].
  split; reflexivity.
Defined.

(** ** Music, continued *)


(** With a linked account and no track played (an empty list, or no list
    at all), [NotLike] holds and every other operator fails. *)
Theorem checkSpotify_no_tracks `{Host} `{Services}
    (user : UserData) (activity : StravaActivity) (c : RecipeCondition) :
  Js.truthy (Js.field user "spotify") = true ->
  getActivityTracks user activity = Ok None \/ getActivityTracks user activity = Ok (Some []) ->
  Js.isNil (value c) = false ->
  Conditions.checkSpotify user activity c = Ok (opIs (operator c) NotLike).
Proof.
  intros Hl Hget Hv. unfold Conditions.checkSpotify, Js.toString.
  rewrite Hl, Hv. destruct Hget as [-> | ->]; cbn -[opIs];
    destruct (operator c); reflexivity.
Qed.

Lemma checkSpotify_no_tracks_witness :
  let H := plainHost in
  let S := fixedServices 0 JNull [] [] in
  let user : UserData := act [("spotify", JObj [])] in
  Conditions.checkSpotify user (act []) (cond "spotify.track" NotLike (JStr "abba")) = Ok true.
Proof.
  intros H S user.
  apply (@checkSpotify_no_tracks H S user (act []) (cond "spotify.track" NotLike (JStr "abba")));
    [reflexivity | right; reflexivity | reflexivity].
Defined.

(** Without a linked account the check is false for every operator,
    [NotLike] included, and whatever the track lookup would answer: the
    branch that sets [valid = true] for [NotLike] comes after the early
    return. *)
Theorem checkSpotify_not_linked `{Host} `{Services}
    (user : UserData) (activity : StravaActivity) (c : RecipeCondition) :
  Js.truthy (Js.field user "spotify") = false ->
  Conditions.checkSpotify user activity c = Ok false.
Proof.
  intros Hl. unfold Conditions.checkSpotify. rewrite Hl. reflexivity.
Qed.

Lemma checkSpotify_not_linked_witness :
  let H := plainHost in
  let S := failingServices in
  Conditions.checkSpotify (act []) (act []) (cond "spotify.track" NotLike (JStr "abba")) = Ok false.
Proof.
  intros H S.
  apply (@checkSpotify_not_linked H S (act []) (act []) _). reflexivity.
Defined.

(** ** First activity of the day, continued *)

Section FirstOfDayMore.
Context `{Services}.

(** The day-of-year test comes first: an activity whose day of the year is
    after that of the user's last activity, or whose year is, is the first
    of its day without any look at the history, with or without the
    same-sport filter.  The test compares the day numbers alone, so it also
    passes for an older activity from later in an earlier year. *)
Theorem isFirstOfDay_fast_path
    (user : UserData) (activity : StravaActivity) (sameSport : bool) (last d : Z) :
  Js.field user "dateLastActivity" = JDate last ->
  Js.field activity "dateStart" = JDate d ->
  Dayjs.dayOfYear last < Dayjs.dayOfYear d \/ Dayjs.year last < Dayjs.year d ->
  Conditions.isFirstOfDay user activity sameSport = Ok true.
Proof.
  intros Hl Hd Hlater. unfold Conditions.isFirstOfDay. rewrite Hl, Hd.
  cbn -[Dayjs.dayOfYear Dayjs.year Dayjs.startOfDay Dayjs.endOfDay].
  assert (E : (Dayjs.dayOfYear last <? Dayjs.dayOfYear d) || (Dayjs.year last <? Dayjs.year d) = true).
  { apply orb_true_iff. destruct Hlater as [Hlt | Hlt]; [left | right]; apply Z.ltb_lt; exact Hlt. }
  rewrite E. reflexivity.
Qed.

(** The verdicts for an answer [isFirst] of the first-of-day computation:
    [Equal true] holds iff the activity is the first, [NotEqual false] iff
    it is not, and [NotEqual true] never holds. *)
Theorem checkFirstOfDay_verdicts
    (user : UserData) (activity : StravaActivity) (p : string) (sameSport isFirst : bool) :
  Conditions.isFirstOfDay user activity sameSport = Ok isFirst ->
  Conditions.checkFirstOfDay user activity (cond p Equal (JBool true)) sameSport = Ok isFirst /\
  Conditions.checkFirstOfDay user activity (cond p NotEqual (JBool false)) sameSport
  = Ok (negb isFirst) /\
  Conditions.checkFirstOfDay user activity (cond p NotEqual (JBool true)) sameSport = Ok false.
Proof.
  intros Hi. unfold Conditions.checkFirstOfDay. rewrite Hi.
  destruct isFirst; repeat split.
Qed.

Lemma insertByDate_In (k : Z) (a : StravaActivity) (l : list (Z * StravaActivity))
    (q : Z * StravaActivity) :
  In q (Conditions.insertByDate k a l) <-> q = (k, a) \/ In q l.
Proof.
  induction l as [|[k' b] l IH]; simpl.
  - intuition congruence.
  - destruct (k <=? k'); simpl; [intuition congruence|].
    rewrite IH. intuition congruence.
Qed.

Lemma insertByDate_headMin (k : Z) (a : StravaActivity) (l : list (Z * StravaActivity)) :
  headMin l -> headMin (Conditions.insertByDate k a l).
Proof.
  destruct l as [|[k' b] l]; simpl.
  - intros _ q [<- | []]. simpl. lia.
  - intros Hmin. destruct (k <=? k') eqn:E; simpl.
    + apply Z.leb_le in E. intros q [<- | Hq]; [simpl; lia|].
      specialize (Hmin q Hq). lia.
    + apply Z.leb_gt in E. intros q [<- | Hq]; [simpl; lia|].
      apply insertByDate_In in Hq. destruct Hq as [-> | Hq]; [simpl; lia|].
      apply Hmin. right. exact Hq.
Qed.

Lemma sortByDate_spec (l : list StravaActivity) (sorted : list (Z * StravaActivity)) :
  Conditions.sortByDate l = Ok sorted ->
  headMin sorted /\
  forall k x, In (k, x) sorted <-> In x l /\ Js.field x "dateStart" = JDate k.
Proof.
  revert sorted. induction l as [|a l IH]; simpl; intros sorted.
  - intros [= <-]. split; [exact I|]. simpl. intuition.
  - destruct (Js.field a "dateStart") as [| | | | |ms| |] eqn:Ha; try discriminate.
    cbn. destruct (Conditions.sortByDate l) as [s| |]; try discriminate.
    cbn. intros [= <-]. destruct (IH s eq_refl) as [Hmin Hin]. split.
    + apply insertByDate_headMin. exact Hmin.
    + intros k x. rewrite insertByDate_In, Hin. split.
      * intros [[= -> ->] | [Hx Hk]]; [split; [left; reflexivity | exact Ha] |].
        split; [right; exact Hx | exact Hk].
      * intros [[<- | Hx] Hk]; [left; congruence | right; split; assumption].
Qed.


End FirstOfDayMore.

(** An activity of 31 December 2022 for a user last seen on 5 January
    2023, with a history lookup that fails. *)
Lemma isFirstOfDay_fast_path_witness :
  let S := failingServices in
  let user : UserData := act [("dateLastActivity", JDate 1672920000000)] in
  let activity := act [("id", JNum (Num.ofZ 7)); ("dateStart", JDate 1672488000000)] in
  Dayjs.dayOfYear 1672488000000 = 365 /\ Dayjs.dayOfYear 1672920000000 = 5 /\
  Conditions.isFirstOfDay user activity true = Ok true.
Proof.
  intros S user activity. split; [reflexivity|]. split; [reflexivity|].
  apply (@isFirstOfDay_fast_path S user activity true 1672920000000 1672488000000);
    [reflexivity | reflexivity | left; reflexivity].
Defined.

Lemma checkFirstOfDay_verdicts_witness :
  let S := failingServices in
  let user : UserData := act [("dateLastActivity", JDate 1681372800000)] in
  let activity := act [("id", JNum (Num.ofZ 7)); ("dateStart", JDate 1681459260000)] in
  Conditions.checkFirstOfDay user activity (cond "firstOfDay" Equal (JBool true)) false = Ok true /\
  Conditions.checkFirstOfDay user activity (cond "firstOfDay" NotEqual (JBool false)) false = Ok false /\
  Conditions.checkFirstOfDay user activity (cond "firstOfDay" NotEqual (JBool true)) false = Ok false.
Proof.
  intros S user activity.
  apply (@checkFirstOfDay_verdicts S user activity "firstOfDay" false true). reflexivity.
Defined.


(** ** Allow-lists, continued *)

Lemma split_without_separator (sep : ascii) (s : string) :
  Str.includes s (String sep "") = false -> Str.split sep s = [s].
Proof.
  induction s as [|ch s IH]; [reflexivity|].
  cbn [Str.includes Str.startsWith Str.split].
  rewrite andb_true_r, Ascii.eqb_sym. intros Hn.
  apply orb_false_iff in Hn as [Hch Hs].
  rewrite Hch, (IH Hs). reflexivity.
Qed.

(** For a sport type without a comma in its name the two modules agree on
    [Equal]: "the whole value or a member of the list" is membership. *)
Theorem checkSportType_modules_agree_on_equal `{Host}
    (a : StravaActivity) (p : string) (v : JsVal) (s : string) :
  Js.isNil v = false ->
  sportIs a (Some s) ->
  Str.includes s "," = false ->
  Conditions.checkSportType a (cond p Equal v) = Legacy.checkSportType a (cond p Equal v).
Proof.
  intros Hv Hs Hcomma.
  rewrite (checkSportType_allowed a (cond p Equal v) Hv (Some s) Hs).
  rewrite (legacy_checkSportType_allowed a (cond p Equal v) Hv (Some s) Hs).
  cbn [allowed legacyAllowed operator value cond default option_rect from_option].
  f_equal. destruct (String.eqb_spec (Js.String_ v) s) as [-> | _]; [|reflexivity].
  rewrite (split_without_separator "," s Hcomma). cbn. rewrite String.eqb_refl. reflexivity.
Qed.

Lemma checkSportType_modules_agree_on_equal_witness :
  let H := plainHost in
  let a := act [("sportType", JStr "Run")] in
  Conditions.checkSportType a (cond "sportType" Equal (JStr "Run")) = Ok true /\
  Legacy.checkSportType a (cond "sportType" Equal (JStr "Run")) = Ok true.
Proof.
  intros H a.
  assert (Hs : sportIs a (Some "Run")) by (split; [reflexivity | discriminate]).
  pose proof (@checkSportType_modules_agree_on_equal H a "sportType" (JStr "Run") "Run"
                eq_refl Hs eq_refl) as E.
  split; [reflexivity|]. rewrite <- E. reflexivity.
Defined.

(** ** Translations *)

Module TranslationFacts.
Import Translations TranslationNotions.

(** Without a usable language the English text is returned, for every
    [id] and with or without capitalisation. *)
Theorem translation_falls_back_to_english (id : string) (preferences capitalized : JsVal) :
  namesNoTable preferences ->
  translation id preferences capitalized = translation id (speaking "en") capitalized.
Proof.
  intros [Hp | (language & Hget & Hl)]; unfold translation.
  - rewrite Hp. reflexivity.
  - destruct (Js.truthy preferences); [|reflexivity]. rewrite Hget.
    destruct Hl as [Hl | (l & -> & Hown & Hinh)].
    + cbn -[own languageStrings inherited]. rewrite Hl. reflexivity.
    + cbn -[own languageStrings inherited].
      destruct (String.eqb l ""); cbn -[own languageStrings inherited]; [reflexivity|].
      rewrite Hinh, Hown. reflexivity.
Qed.

Lemma translation_falls_back_to_english_witness :
  translation "Rain" (speaking "it") (JBool true) = Ok (JStr "Rain") /\
  translation "Rain" JUndefined (JBool false) = Ok (JStr "rain").
Proof.
  split.
  - rewrite (translation_falls_back_to_english "Rain" (speaking "it") (JBool true));
      [reflexivity|].
    right. exists (JStr "it"). split; [reflexivity|]. right. exists "it". repeat split.
  - rewrite (translation_falls_back_to_english "Rain" JUndefined (JBool false));
      [reflexivity | left; reflexivity].
Defined.

(** Every one of the five tables has a text for every member of
    [LanguageString]: no supported language lacks a translation, and
    capitalising never fails. *)
Theorem translation_complete (l id : string) :
  In l (map fst languageStrings) ->
  In id ids ->
  exists text capital,
    text <> "" /\
    translation id (speaking l) (JBool false) = Ok (JStr text) /\
    translation id (speaking l) (JBool true) = Ok (JStr capital).
Proof.
  intros Hl Hid.
  assert (Hall : forallb (fun l' => forallb (translated l') ids) (map fst languageStrings) = true)
    by (vm_compute; reflexivity).
  rewrite forallb_forall in Hall. specialize (Hall l Hl).
  rewrite forallb_forall in Hall. specialize (Hall id Hid).
  unfold translated in Hall.
  destruct (translation id (speaking l) (JBool false)) as [[| | | |text| | |]| |]; try discriminate.
  destruct (translation id (speaking l) (JBool true)) as [[| | | |capital| | |]| |]; try discriminate.
  exists text, capital. split; [|split; reflexivity].
  intros ->. discriminate.
Qed.

Lemma translation_complete_witness :
  exists text capital,
    text <> "" /\
    translation "ElevationGain" (speaking "de") (JBool false) = Ok (JStr text) /\
    translation "ElevationGain" (speaking "de") (JBool true) = Ok (JStr capital).
Proof.
  apply (translation_complete "de" "ElevationGain").
  - right. left. reflexivity.
  - vm_compute. tauto.
Defined.

(** Capitalising changes the first letter only: a text that starts with an
    ASCII character comes back with that character in upper case and the
    rest untouched. *)
Theorem translation_capitalized (id : string) (preferences : JsVal) (ch : ascii) (r : string) :
  translation id preferences (JBool false) = Ok (JStr (String ch r)) ->
  (Str.code ch < 128)%nat ->
  translation id preferences (JBool true) = Ok (JStr (String (upperChar ch) r)).
Proof.
  unfold translation. intros Hplain Hascii.
  destruct (if Js.truthy preferences then _ else _) as [language| |]; try discriminate.
  cbn -[own languageStrings inherited] in *.
  match goal with |- context [mbind _ ?m] => destruct m as [lang| |] end; try discriminate.
  cbn -[own languageStrings inherited] in *.
  destruct (own languageStrings lang) as [table|]; try discriminate.
  destruct (inherited id); try discriminate.
  destruct (own table id) as [text|]; try discriminate.
  injection Hplain as ->. cbn [Js.truthy]. unfold capitalize.
  destruct (Nat.ltb_spec (Str.code ch) 128); [reflexivity | lia].
Qed.

Lemma translation_capitalized_witness :
  translation "Wind" (speaking "es") (JBool true) = Ok (JStr "Viento").
Proof.
  apply (translation_capitalized "Wind" (speaking "es") "v" "iento"); [reflexivity|].
  vm_compute. lia.
Defined.

Lemma own_keys {A : Type} (table : list (string * A)) (k : string) :
  ~ In k (map fst table) -> own table k = None.
Proof.
  induction table as [|[k' v] table IH]; [reflexivity|]. simpl. intros Hn.
  destruct (String.eqb_spec k' k) as [-> | _]; [tauto|]. apply IH. tauto.
Qed.

(** An [id] that is no member of [LanguageString] has no text in any
    language: the plain call returns [undefined], and the capitalised call
    raises, since it calls [charAt] on it. *)
Theorem translation_unknown_id (id l : string) :
  ~ In id ids ->
  inherited id = false ->
  inherited l = false ->
  translation id (speaking l) (JBool false) = Ok JUndefined /\
  translation id (speaking l) (JBool true) = Throw TypeError.
Proof.
  intros Hid Hinh Hl.
  assert (Hkeys : forallb (fun t => forallb (fun k => Str.member k ids) (map fst (snd t)))
                    languageStrings = true) by (vm_compute; reflexivity).
  assert (Hnone : forall name table, own languageStrings name = Some table -> own table id = None).
  { intros name table Hown. apply own_keys.
    assert (Hin : In (name, table) languageStrings).
    { revert Hown. generalize languageStrings. intros ts.
      induction ts as [|[n t] ts IH]; [discriminate|]. simpl.
      destruct (String.eqb_spec n name) as [-> | _]; [intros [= ->]; left; reflexivity|].
      intros Hown. right. apply IH. exact Hown. }
    rewrite forallb_forall in Hkeys. specialize (Hkeys _ Hin). simpl in Hkeys.
    rewrite forallb_forall in Hkeys. intros Hk. apply Hid.
    apply member_In. apply Hkeys. exact Hk. }
  unfold translation, speaking. cbn -[own languageStrings inherited].
  destruct (String.eqb l ""); cbn -[own languageStrings inherited].
  - destruct (own languageStrings "en") as [table|] eqn:E; [|discriminate E].
    rewrite Hinh, (Hnone _ _ E). split; reflexivity.
  - rewrite Hl. destruct (own languageStrings l) as [t|] eqn:El;
      cbn -[own languageStrings inherited].
    + rewrite El, Hinh, (Hnone _ _ El). split; reflexivity.
    + destruct (own languageStrings "en") as [table|] eqn:E; [|discriminate E].
      rewrite Hinh, (Hnone _ _ E). split; reflexivity.
Qed.

Lemma translation_unknown_id_witness :
  translation "Hail" (speaking "fr") (JBool false) = Ok JUndefined /\
  translation "Hail" (speaking "fr") (JBool true) = Throw TypeError.
Proof.
  apply (translation_unknown_id "Hail" "fr"); [|reflexivity|reflexivity].
  vm_compute. intuition discriminate.
Defined.

End TranslationFacts.
